(** * UNet.py: an encoder/decoder segmentation network, at the level of tensor
    sizes and of the operator graph it builds.

    A tensor is modelled by its size [(N, C, H, W)] together with the symbolic
    expression (the dataflow graph) that produced it.  The operators of the
    tensor framework (convolution, batch normalisation, pooling, upsampling,
    padding, concatenation) are modelled by their documented size arithmetic
    and by the size checks under which they raise; the classes of UNet.py are
    translated one by one on top of them. *)

From Stdlib Require Import ZArith List Bool String Lia.
Import ListNotations.
Local Open Scope Z_scope.
Set Warnings "-register-all".

(** ** Errors raised by the tensor operators *)

Inductive TorchError : Type :=
| ChannelMismatch        (* conv / batch-norm: input has the wrong channel count *)
| KernelTooLarge         (* conv: padded input smaller than the kernel *)
| OutputTooSmall         (* pooling: computed output size below 1 *)
| SingleValuePerChannel  (* batch-norm in training mode: N*H*W = 1 *)
| EmptyInput             (* pooling / upsampling: the input may not be empty *)
| EmptyWeight            (* conv / transpose-conv: the weight has no channels *)
| BadPadding             (* pad: negative padding larger than the dimension *)
| BadDim                 (* cat: dimension out of range *)
| SizeMismatch.          (* cat: sizes differ outside the cat dimension *)

Inductive result (A : Type) : Type :=
| Ok (a : A)
| Err (e : TorchError).
Arguments Ok {A} a.
Arguments Err {A} e.

Definition bind {A B : Type} (r : result A) (k : A -> result B) : result B :=
  match r with
  | Ok a => k a
  | Err e => Err e
  end.

Definition result_map {A B : Type} (f : A -> B) (r : result A) : result B :=
  match r with
  | Ok a => Ok (f a)
  | Err e => Err e
  end.

Notation "x <- c ;; k" := (bind c (fun x => k))
  (at level 61, c at next level, right associativity).

(** ** Modules (layers) *)

Inductive InterpMode : Type := Nearest | Bilinear.

(** The layer classes of [torch.nn] that UNet.py instantiates, with the
    constructor arguments it passes; the remaining arguments keep their
    defaults (stride 1 and dilation 1 for [Conv2d]; padding 0 for
    [MaxPool2d] and [ConvTranspose2d]).  [Sequential] is [nn.Sequential]. *)
Inductive Module : Type :=
| Conv2d (in_channels out_channels kernel_size padding : Z) (bias : bool)
| BatchNorm2d (num_features : Z)
| ReLU
| MaxPool2d (kernel_size stride : Z)
| Upsample (scale_factor : Z) (mode : InterpMode) (align_corners : bool)
| ConvTranspose2d (in_channels out_channels kernel_size stride : Z)
| Sequential (layers : list Module).

(** ** Tensors *)

Record Size : Type := mkSize { dimN : Z; dimC : Z; dimH : Z; dimW : Z }.

(** The operator graph behind a tensor: which operators, with which
    hyper-parameters, were applied to which inputs, in which order. *)
Inductive Graph : Type :=
| GInput (name : string)
| GApply (layer : Module) (x : Graph)
| GPad (pad_left pad_right pad_top pad_bottom : Z) (x : Graph)
| GCat (dim : Z) (xs : list Graph).

Record Tensor : Type := mkTensor { size : Size; graph : Graph }.

(** A tensor none of whose dimensions is zero. *)
Definition nonempty (x : Tensor) : Prop :=
  1 <= dimN (size x) /\ 1 <= dimC (size x) /\
  1 <= dimH (size x) /\ 1 <= dimW (size x).

Definition input_tensor (name : string) (n c h w : Z) : Tensor :=
  mkTensor (mkSize n c h w) (GInput name).

(** ** The framework's operators

    These are operators of the tensor library [torch], which UNet.py imports;
    none of them is defined in UNet.py.  Each is modelled by the output size
    the library documents for it and by the checks the library makes on the
    input size before it computes anything; the message the library raises
    with is quoted with each check. *)

(** [nn.Conv2d.forward], stride 1, dilation 1, square kernel: output extent
    [i + 2 * padding - kernel_size + 1].  Raises "expected input ... to have
    [in_channels] channels" on a wrong channel count, and "Kernel size can't
    be greater than actual input size" when the padded input is smaller than
    the kernel.  Before either, a weight without output channels is refused
    ("expected weight to be at least 1 at dimension 0"). *)
Definition conv2d (cin cout k p : Z) (b : bool) (x : Tensor) : result Tensor :=
  let s := size x in
  if cout <? 1 then Err EmptyWeight
  else if negb (dimC s =? cin) then Err ChannelMismatch
  else if (dimH s + 2 * p <? k) || (dimW s + 2 * p <? k) then Err KernelTooLarge
  else Ok (mkTensor (mkSize (dimN s) cout
                            (dimH s + 2 * p - k + 1) (dimW s + 2 * p - k + 1))
                    (GApply (Conv2d cin cout k p b) (graph x))).

(** [nn.BatchNorm2d.forward]: the size is unchanged.  In training mode the
    batch statistics need more than one value per channel: on
    [N * H * W = 1] it raises "Expected more than 1 value per channel when
    training".  In evaluation mode the running statistics are used and there
    is no such check.  Raises on a channel count other than
    [num_features]. *)
Definition batch_norm2d (training : bool) (nf : Z) (x : Tensor) : result Tensor :=
  let s := size x in
  if training && (dimN s * dimH s * dimW s =? 1) then Err SingleValuePerChannel
  else if negb (dimC s =? nf) then Err ChannelMismatch
  else Ok (mkTensor s (GApply (BatchNorm2d nf) (graph x))).

Definition relu (x : Tensor) : result Tensor :=
  Ok (mkTensor (size x) (GApply ReLU (graph x))).

(** [nn.MaxPool2d.forward], padding 0, dilation 1, [ceil_mode=False]: the
    output extent [(i - kernel_size) / stride + 1] is rounded towards minus
    infinity.  An input without channels or with an empty plane is refused
    first ("Expected 3D or 4D (batch mode) tensor with optional 0 dim batch
    size for input"); then "Output size is too small" is raised when the
    output extent is below 1. *)
Definition pool_out (i k s : Z) : Z := (i - k) / s + 1.

Definition max_pool2d (k st : Z) (x : Tensor) : result Tensor :=
  let s := size x in
  let h := pool_out (dimH s) k st in
  let w := pool_out (dimW s) k st in
  if (dimC s <? 1) || (dimH s <? 1) || (dimW s <? 1) then Err EmptyInput
  else if (h <? 1) || (w <? 1) then Err OutputTooSmall
  else Ok (mkTensor (mkSize (dimN s) (dimC s) h w)
                    (GApply (MaxPool2d k st) (graph x))).

(** [nn.Upsample.forward] with an integer [scale_factor]: output extent
    [i * scale_factor].  Raises "Input and output sizes should be greater
    than 0" on an empty plane. *)
Definition upsample (sc : Z) (m : InterpMode) (ac : bool) (x : Tensor)
  : result Tensor :=
  let s := size x in
  if (dimH s <? 1) || (dimW s <? 1) || (dimH s * sc <? 1) || (dimW s * sc <? 1)
  then Err EmptyInput
  else Ok (mkTensor (mkSize (dimN s) (dimC s) (dimH s * sc) (dimW s * sc))
                    (GApply (Upsample sc m ac) (graph x))).

(** [nn.ConvTranspose2d.forward], padding 0, output padding 0, dilation 1:
    output extent [(i - 1) * stride + kernel_size].  The weight has size
    [(in_channels, out_channels, k, k)].  A weight without input channels is
    refused first ("expected weight to be at least 1 at dimension 0"), then
    a wrong channel count ("expected input ... to have [in_channels]
    channels"), then an empty plane ("Only zero batch or zero channel inputs
    are supported"), then a weight without output channels ("non-empty 2D or
    4D weight tensor expected"). *)
Definition conv_transpose2d (cin cout k st : Z) (x : Tensor) : result Tensor :=
  let s := size x in
  if cin <? 1 then Err EmptyWeight
  else if negb (dimC s =? cin) then Err ChannelMismatch
  else if (dimH s <? 1) || (dimW s <? 1) then Err EmptyInput
  else if cout <? 1 then Err EmptyWeight
  else Ok (mkTensor (mkSize (dimN s) cout
                            ((dimH s - 1) * st + k) ((dimW s - 1) * st + k))
                    (GApply (ConvTranspose2d cin cout k st) (graph x))).

(** One axis of [F.pad] (constant mode): a positive amount adds entries, a
    negative amount removes entries, and may not remove more than there
    are. *)
Definition pad_axis (i before after : Z) : option Z :=
  if i + Z.min before 0 + Z.min after 0 <? 0 then None
  else Some (i + before + after).

(** [F.pad(x, [left, right, top, bottom])]: the first pair applies to the last
    dimension (width), the second pair to the height. *)
Definition F_pad (x : Tensor) (pad : Z * Z * Z * Z) : result Tensor :=
  let '(pl, pr, pt, pb) := pad in
  let s := size x in
  match pad_axis (dimW s) pl pr, pad_axis (dimH s) pt pb with
  | Some w, Some h =>
      Ok (mkTensor (mkSize (dimN s) (dimC s) h w)
                   (GPad pl pr pt pb (graph x)))
  | _, _ => Err BadPadding
  end.

Definition get_dim (s : Size) (d : Z) : Z :=
  if d =? 0 then dimN s else if d =? 1 then dimC s
  else if d =? 2 then dimH s else dimW s.

Definition set_dim (s : Size) (d v : Z) : Size :=
  if d =? 0 then mkSize v (dimC s) (dimH s) (dimW s)
  else if d =? 1 then mkSize (dimN s) v (dimH s) (dimW s)
  else if d =? 2 then mkSize (dimN s) (dimC s) v (dimW s)
  else mkSize (dimN s) (dimC s) (dimH s) v.

Definition size_eqb (a b : Size) : bool :=
  (dimN a =? dimN b) && (dimC a =? dimC b) &&
  (dimH a =? dimH b) && (dimW a =? dimW b).

(** [torch.cat(xs, dim)]: every tensor must agree with the first one outside
    dimension [dim]; along [dim] the sizes add up, in list order. *)
Definition torch_cat (xs : list Tensor) (dim : Z) : result Tensor :=
  let d := if dim <? 0 then dim + 4 else dim in
  if (d <? 0) || (3 <? d) then Err BadDim
  else
    match xs with
    | [] => Err SizeMismatch
    | x0 :: _ =>
        if forallb (fun x => size_eqb (set_dim (size x) d 0)
                                      (set_dim (size x0) d 0)) xs
        then Ok (mkTensor
                   (set_dim (size x0) d
                      (fold_right (fun x acc => get_dim (size x) d + acc) 0 xs))
                   (GCat dim (map graph xs)))
        else Err SizeMismatch
    end.

(** ** Forward pass of a module

    [training] is the [training] attribute every [nn.Module] carries: [true]
    after construction, [false] after [.eval()].  Only batch normalisation
    reads it. *)
Section Forward.

Variable training : bool.

Fixpoint forward (m : Module) (x : Tensor) {struct m} : result Tensor :=
  match m with
  | Conv2d cin cout k p b => conv2d cin cout k p b x
  | BatchNorm2d nf => batch_norm2d training nf x
  | ReLU => relu x
  | MaxPool2d k st => max_pool2d k st x
  | Upsample sc md ac => upsample sc md ac x
  | ConvTranspose2d cin cout k st => conv_transpose2d cin cout k st x
  | Sequential layers =>
      (fix run (ls : list Module) (y : Tensor) {struct ls} : result Tensor :=
         match ls with
         | [] => Ok y
         | l :: ls' => z <- forward l y ;; run ls' z
         end) layers x
  end.

End Forward.

(** ** The classes of UNet.py *)

(** [DoubleConv(in_channels, out_channels, mid_channels=None)]. *)
Definition DoubleConv (in_channels out_channels : Z) (mid_channels : option Z)
  : Module :=
  let mid_channels :=
    match mid_channels with
    | None => out_channels
    | Some m => m
    end in
  Sequential
    [ Conv2d in_channels mid_channels 3 1 false;
      BatchNorm2d mid_channels;
      ReLU;
      Conv2d mid_channels out_channels 3 1 false;
      BatchNorm2d out_channels;
      ReLU ].

(** [Down(in_channels, out_channels)]. *)
Definition Down (in_channels out_channels : Z) : Module :=
  Sequential
    [ MaxPool2d 2 2;
      DoubleConv in_channels out_channels None ].

(** [Up]: the attributes [self.up] and [self.conv]. *)
Record Up : Type := mkUp { up : Module; conv : Module }.

(** [Up.__init__(in_channels, out_channels, bilinear=True)]. *)
Definition Up_init (in_channels out_channels : Z) (bilinear : bool) : Up :=
  if bilinear then
    {| up := Upsample 2 Bilinear true;
       conv := DoubleConv in_channels out_channels (Some (in_channels / 2)) |}
  else
    {| up := ConvTranspose2d in_channels (in_channels / 2) 2 2;
       conv := DoubleConv in_channels out_channels None |}.

(** [Up.forward(x1, x2)]; [//] is Python's floor division, which is [/] on
    [Z]. *)
Definition Up_forward (training : bool) (self : Up) (x1 x2 : Tensor)
  : result Tensor :=
  x1 <- forward training (up self) x1 ;;
  let diff_y := dimH (size x2) - dimH (size x1) in
  let diff_x := dimW (size x2) - dimW (size x1) in
  x1 <- F_pad x1 (diff_x / 2, diff_x - diff_x / 2,
                  diff_y / 2, diff_y - diff_y / 2) ;;
  x <- torch_cat [x2; x1] 1 ;;
  x <- forward training (conv self) x ;;
  Ok x.

(** The four-element padding list [Up.forward] hands to [F.pad], for the
    upsampled [x1] and the skip tensor [x2]. *)
Definition Up_pads (x1 x2 : Tensor) : Z * Z * Z * Z :=
  let diff_y := dimH (size x2) - dimH (size x1) in
  let diff_x := dimW (size x2) - dimW (size x1) in
  (diff_x / 2, diff_x - diff_x / 2, diff_y / 2, diff_y - diff_y / 2).

(** [OutConv(in_channels, num_classes)]; the convolution keeps its default
    bias. *)
Definition OutConv (in_channels num_classes : Z) : Module :=
  Sequential [ Conv2d in_channels num_classes 1 0 true ].

Record UNet : Type := mkUNet {
  in_channels : Z;
  num_classes : Z;
  bilinear : bool;
  in_conv : Module;
  down1 : Module;
  down2 : Module;
  down3 : Module;
  down4 : Module;
  up1 : Up;
  up2 : Up;
  up3 : Up;
  up4 : Up;
  out_conv : Module
}.

(** [UNet.__init__(in_channels=1, num_classes=4, bilinear=True, base_c=64)]. *)
Definition UNet_init (in_channels num_classes : Z) (bilinear : bool) (base_c : Z)
  : UNet :=
  let factor := if bilinear then 2 else 1 in
  {| in_channels := in_channels;
     num_classes := num_classes;
     bilinear := bilinear;
     in_conv := DoubleConv in_channels base_c None;
     down1 := Down base_c (base_c * 2);
     down2 := Down (base_c * 2) (base_c * 4);
     down3 := Down (base_c * 4) (base_c * 8);
     down4 := Down (base_c * 8) (base_c * 16 / factor);
     up1 := Up_init (base_c * 16) (base_c * 8 / factor) bilinear;
     up2 := Up_init (base_c * 8) (base_c * 4 / factor) bilinear;
     up3 := Up_init (base_c * 4) (base_c * 2 / factor) bilinear;
     up4 := Up_init (base_c * 2) base_c bilinear;
     out_conv := OutConv base_c num_classes |}.

(** [UNet.forward(x)]. *)
Definition UNet_forward (training : bool) (self : UNet) (x : Tensor)
  : result Tensor :=
  x1 <- forward training (in_conv self) x ;;
  x2 <- forward training (down1 self) x1 ;;
  x3 <- forward training (down2 self) x2 ;;
  x4 <- forward training (down3 self) x3 ;;
  x5 <- forward training (down4 self) x4 ;;
  x <- Up_forward training (up1 self) x5 x4 ;;
  x <- Up_forward training (up2 self) x x3 ;;
  x <- Up_forward training (up3 self) x x2 ;;
  x <- Up_forward training (up4 self) x x1 ;;
  logits <- forward training (out_conv self) x ;;
  Ok logits.

(** ** The forward passes with their intermediate tensors kept

    [Up_forward_cat] is [Up.forward] up to and including [torch.cat];
    [UNet_forward_stages] is [UNet.forward] returning every tensor it binds:
    the encoder states [x1..x5], the concatenated tensor and the output of
    each of the four [Up] blocks, and the logits. *)

Definition Up_forward_cat (training : bool) (self : Up) (x1 x2 : Tensor)
  : result Tensor :=
  x1 <- forward training (up self) x1 ;;
  x1 <- F_pad x1 (Up_pads x1 x2) ;;
  torch_cat [x2; x1] 1.

Record Stages : Type := mkStages {
  s_x1 : Tensor; s_x2 : Tensor; s_x3 : Tensor; s_x4 : Tensor; s_x5 : Tensor;
  s_cat1 : Tensor; s_up1 : Tensor;
  s_cat2 : Tensor; s_up2 : Tensor;
  s_cat3 : Tensor; s_up3 : Tensor;
  s_cat4 : Tensor; s_up4 : Tensor;
  s_logits : Tensor
}.

Definition UNet_forward_stages (training : bool) (self : UNet) (x : Tensor)
  : result Stages :=
  x1 <- forward training (in_conv self) x ;;
  x2 <- forward training (down1 self) x1 ;;
  x3 <- forward training (down2 self) x2 ;;
  x4 <- forward training (down3 self) x3 ;;
  x5 <- forward training (down4 self) x4 ;;
  c1 <- Up_forward_cat training (up1 self) x5 x4 ;;
  u1 <- forward training (conv (up1 self)) c1 ;;
  c2 <- Up_forward_cat training (up2 self) u1 x3 ;;
  u2 <- forward training (conv (up2 self)) c2 ;;
  c3 <- Up_forward_cat training (up3 self) u2 x2 ;;
  u3 <- forward training (conv (up3 self)) c3 ;;
  c4 <- Up_forward_cat training (up4 self) u3 x1 ;;
  u4 <- forward training (conv (up4 self)) c4 ;;
  logits <- forward training (out_conv self) u4 ;;
  Ok (mkStages x1 x2 x3 x4 x5 c1 u1 c2 u2 c3 u3 c4 u4 logits).

(** ** The blocks as the specification words them *)

(** One pass of (3x3 convolution with padding 1 and no bias, batch
    normalisation, ReLU). *)
Definition conv_bn_relu (training : bool) (c_in c_out : Z) (x : Tensor)
  : result Tensor :=
  y <- conv2d c_in c_out 3 1 false x ;;
  y <- batch_norm2d training c_out y ;;
  relu y.

(** ConvBlock: two such passes, [c_in -> c_mid -> c_out]. *)
Definition ConvBlock_spec (training : bool) (c_in c_mid c_out : Z) (x : Tensor)
  : result Tensor :=
  y <- conv_bn_relu training c_in c_mid x ;;
  conv_bn_relu training c_mid c_out y.

(** DownBlock: 2x2 max-pooling with stride 2, then one ConvBlock. *)
Definition DownBlock_spec (training : bool) (c_in c_out : Z) (x : Tensor)
  : result Tensor :=
  y <- max_pool2d 2 2 x ;;
  forward training (DoubleConv c_in c_out None) y.


(** The operator graphs the blocks build. *)
Definition conv_bn_relu_graph (c_in c_out : Z) (g : Graph) : Graph :=
  GApply ReLU
    (GApply (BatchNorm2d c_out)
       (GApply (Conv2d c_in c_out 3 1 false) g)).

Definition DoubleConv_graph (c_in c_mid c_out : Z) (g : Graph) : Graph :=
  conv_bn_relu_graph c_mid c_out (conv_bn_relu_graph c_in c_mid g).

Definition mid_or (c_out : Z) (mid : option Z) : Z :=
  match mid with
  | None => c_out
  | Some m => m
  end.

(** Spatial size of a tensor. *)
Definition spatial (x : Tensor) : Z * Z := (dimH (size x), dimW (size x)).

(** Batch normalisation accepts the sizes [(n, _, h, w)]. *)
Definition bn_ok (training : bool) (n h w : Z) : Prop :=
  training = true -> n * h * w <> 1.

(** The sizes a ConvBlock accepts: a non-empty plane, and enough values per
    channel for its batch normalisations. *)
Definition dc_ok (training : bool) (x : Tensor) : Prop :=
  1 <= dimH (size x) /\ 1 <= dimW (size x) /\
  bn_ok training (dimN (size x)) (dimH (size x)) (dimW (size x)).

(** The sizes a DownBlock accepts. *)
Definition down_ok (training : bool) (x : Tensor) : Prop :=
  2 <= dimH (size x) /\ 2 <= dimW (size x) /\
  bn_ok training (dimN (size x)) (dimH (size x) / 2) (dimW (size x) / 2).

(** The sizes the whole network accepts: four halvings must leave a
    non-empty plane, on which the deepest batch normalisation must work. *)
Definition unet_ok (training : bool) (x : Tensor) : Prop :=
  16 <= dimH (size x) /\ 16 <= dimW (size x) /\
  bn_ok training (dimN (size x)) (dimH (size x) / 16) (dimW (size x) / 16).

(** The graph of the concatenated tensor inside an UpBlock whose upsampling
    layer is [u]: [x2] first, then the padded, upsampled [x1]. *)
Definition Up_cat_graph (u : Module) (x1 x2 : Tensor) : Graph :=
  let dh := dimH (size x2) - dimH (size x1) * 2 in
  let dw := dimW (size x2) - dimW (size x1) * 2 in
  GCat 1 [ graph x2;
           GPad (dw / 2) (dw - dw / 2) (dh / 2) (dh - dh / 2)
             (GApply u (graph x1)) ].

(** The sizes of all the tensors of a forward pass, in the order they are
    computed. *)
Definition stage_sizes (st : Stages) : list Size :=
  map size [ s_x1 st; s_x2 st; s_x3 st; s_x4 st; s_x5 st;
             s_cat1 st; s_up1 st; s_cat2 st; s_up2 st;
             s_cat3 st; s_up3 st; s_cat4 st; s_up4 st; s_logits st ].

(** The sizes the channel arithmetic of [UNet.__init__] and the halvings of
    the encoder lead to, for an input of size [(n, _, h, w)]. *)
Definition UNet_sizes (num_classes : Z) (bilinear : bool) (base_c : Z)
  (n h w : Z) : list Size :=
  let factor := if bilinear then 2 else 1 in
  [ mkSize n base_c h w;
    mkSize n (base_c * 2) (h / 2) (w / 2);
    mkSize n (base_c * 4) (h / 4) (w / 4);
    mkSize n (base_c * 8) (h / 8) (w / 8);
    mkSize n (base_c * 16 / factor) (h / 16) (w / 16);
    mkSize n (base_c * 16) (h / 8) (w / 8);
    mkSize n (base_c * 8 / factor) (h / 8) (w / 8);
    mkSize n (base_c * 8) (h / 4) (w / 4);
    mkSize n (base_c * 4 / factor) (h / 4) (w / 4);
    mkSize n (base_c * 4) (h / 2) (w / 2);
    mkSize n (base_c * 2 / factor) (h / 2) (w / 2);
    mkSize n (base_c * 2) h w;
    mkSize n base_c h w;
    mkSize n num_classes h w ].

(** Output channel widths of the five encoder levels and of the four decoder
    levels of a forward pass. *)
Definition encoder_widths (st : Stages) : list Z :=
  map (fun t => dimC (size t)) [ s_x1 st; s_x2 st; s_x3 st; s_x4 st; s_x5 st ].

Definition decoder_widths (st : Stages) : list Z :=
  map (fun t => dimC (size t)) [ s_up1 st; s_up2 st; s_up3 st; s_up4 st ].

(** The size of the returned tensor, if one is returned. *)
Definition output_size (r : result Tensor) : option Size :=
  match r with
  | Ok y => Some (size y)
  | Err _ => None
  end.

(** The [in_channels] a ConvBlock was constructed with: those of its first
    convolution. *)
Definition ConvBlock_in_channels (m : Module) : option Z :=
  match m with
  | Sequential (Conv2d c_in _ _ _ _ :: _) => Some c_in
  | _ => None
  end.

(** A configuration: positive channel counts, class count and base width. *)
Definition valid_config (in_channels num_classes base_c : Z) : Prop :=
  1 <= in_channels /\ 1 <= num_classes /\ 1 <= base_c.

(** A tensor with at least one batch entry and one channel; its plane may be
    empty. *)
Definition batched (x : Tensor) : Prop :=
  1 <= dimN (size x) /\ 1 <= dimC (size x) /\
  0 <= dimH (size x) /\ 0 <= dimW (size x).

(** A call that returns a tensor. *)
Definition returns (r : result Tensor) : Prop := exists y, r = Ok y.

(** The pad amounts recorded in the graph of a concatenated tensor
    [cat [x2, pad (up x1)]]. *)
Definition pad_node (g : Graph) : option (Z * Z * Z * Z) :=
  match g with
  | GCat _ [_; GPad pl pr pt pb _] => Some (pl, pr, pt, pb)
  | _ => None
  end.

(** The two inputs of a concatenated tensor [cat [x2, pad (up x1)]]: the
    graph of [x2], the upsampling layer and the graph of [x1]. *)
Definition cat_inputs (g : Graph) : option (Graph * Module * Graph) :=
  match g with
  | GCat _ [g2; GPad _ _ _ _ (GApply u g1)] => Some (g2, u, g1)
  | _ => None
  end.

(** The last operator applied to a tensor. *)
Definition last_layer (g : Graph) : option Module :=
  match g with
  | GApply layer _ => Some layer
  | _ => None
  end.

(** A result that is an error other than a channel mismatch. *)
Definition size_error {A : Type} (r : result A) : Prop :=
  exists e, r = Err e /\ e <> ChannelMismatch.

(** * Properties *)

(** ** The operators *)

Lemma bind_ret {A : Type} (r : result A) : bind r (fun a => Ok a) = r.
Proof. destruct r; reflexivity. Qed.

Lemma bind_size_error {A B : Type} (r : result A) (k : A -> result B) :
  size_error r -> size_error (bind r k).
Proof. intros (e & -> & He). exists e. split; [reflexivity | exact He]. Qed.

Lemma Err_size_error {A : Type} (e : TorchError) :
  e <> ChannelMismatch -> size_error (@Err A e).
Proof. intros He. exists e. split; [reflexivity | exact He]. Qed.

Lemma conv2d_ok cin cout k p b x :
  1 <= cout ->
  dimC (size x) = cin ->
  k <= dimH (size x) + 2 * p -> k <= dimW (size x) + 2 * p ->
  conv2d cin cout k p b x =
  Ok (mkTensor (mkSize (dimN (size x)) cout
                  (dimH (size x) + 2 * p - k + 1) (dimW (size x) + 2 * p - k + 1))
        (GApply (Conv2d cin cout k p b) (graph x))).
Proof.
  intros Hout HC HH HW. unfold conv2d.
  rewrite (proj2 (Z.ltb_ge cout 1) Hout).
  rewrite (proj2 (Z.eqb_eq _ _) HC).
  rewrite (proj2 (Z.ltb_ge _ _) HH), (proj2 (Z.ltb_ge _ _) HW).
  reflexivity.
Qed.

Lemma conv2d_empty_weight cin cout k p b x :
  cout < 1 -> conv2d cin cout k p b x = Err EmptyWeight.
Proof.
  intros Hout. unfold conv2d.
  rewrite (proj2 (Z.ltb_lt cout 1) Hout). reflexivity.
Qed.

Lemma conv2d_small cin cout k p b x :
  1 <= cout ->
  dimC (size x) = cin ->
  dimH (size x) + 2 * p < k \/ dimW (size x) + 2 * p < k ->
  conv2d cin cout k p b x = Err KernelTooLarge.
Proof.
  intros Hout HC Hs. unfold conv2d.
  rewrite (proj2 (Z.ltb_ge cout 1) Hout).
  rewrite (proj2 (Z.eqb_eq _ _) HC). cbn [negb].
  destruct Hs as [Hs | Hs]; apply Z.ltb_lt in Hs; rewrite Hs;
    [ reflexivity | rewrite orb_true_r; reflexivity ].
Qed.

Lemma conv2d_wrong_channels cin cout k p b x :
  1 <= cout ->
  dimC (size x) <> cin ->
  conv2d cin cout k p b x = Err ChannelMismatch.
Proof.
  intros Hout HC. unfold conv2d.
  rewrite (proj2 (Z.ltb_ge cout 1) Hout).
  rewrite (proj2 (Z.eqb_neq _ _) HC). reflexivity.
Qed.

Lemma batch_norm2d_ok training nf x :
  dimC (size x) = nf ->
  bn_ok training (dimN (size x)) (dimH (size x)) (dimW (size x)) ->
  batch_norm2d training nf x =
  Ok (mkTensor (size x) (GApply (BatchNorm2d nf) (graph x))).
Proof.
  intros HC Hbn. unfold batch_norm2d.
  rewrite (proj2 (Z.eqb_eq _ _) HC).
  destruct training; [ | reflexivity ].
  rewrite (proj2 (Z.eqb_neq _ _) (Hbn eq_refl)). reflexivity.
Qed.

Lemma batch_norm2d_single nf x :
  dimN (size x) * dimH (size x) * dimW (size x) = 1 ->
  batch_norm2d true nf x = Err SingleValuePerChannel.
Proof.
  intros H1. unfold batch_norm2d.
  rewrite (proj2 (Z.eqb_eq _ _) H1). reflexivity.
Qed.

Lemma pool_out_2 (i : Z) : pool_out i 2 2 = i / 2.
Proof.
  unfold pool_out.
  replace (i - 2) with (i + (-1) * 2) by lia.
  rewrite Z.div_add by lia. lia.
Qed.

Lemma max_pool2d_ok x :
  1 <= dimC (size x) ->
  2 <= dimH (size x) -> 2 <= dimW (size x) ->
  max_pool2d 2 2 x =
  Ok (mkTensor (mkSize (dimN (size x)) (dimC (size x))
                  (dimH (size x) / 2) (dimW (size x) / 2))
        (GApply (MaxPool2d 2 2) (graph x))).
Proof.
  intros HC HH HW. unfold max_pool2d. rewrite !pool_out_2.
  rewrite (proj2 (Z.ltb_ge (dimC (size x)) 1)) by lia.
  rewrite (proj2 (Z.ltb_ge (dimH (size x)) 1)) by lia.
  rewrite (proj2 (Z.ltb_ge (dimW (size x)) 1)) by lia.
  cbn [orb].
  assert (1 <= dimH (size x) / 2) by (apply Z.div_le_lower_bound; lia).
  assert (1 <= dimW (size x) / 2) by (apply Z.div_le_lower_bound; lia).
  rewrite (proj2 (Z.ltb_ge _ _) H), (proj2 (Z.ltb_ge _ _) H0).
  reflexivity.
Qed.

Lemma max_pool2d_empty k st x :
  dimC (size x) < 1 \/ dimH (size x) < 1 \/ dimW (size x) < 1 ->
  max_pool2d k st x = Err EmptyInput.
Proof.
  intros Hs. unfold max_pool2d.
  destruct Hs as [Hs | [Hs | Hs]]; apply Z.ltb_lt in Hs; rewrite Hs;
    rewrite ?orb_true_r; reflexivity.
Qed.

Lemma max_pool2d_small x :
  1 <= dimC (size x) -> 1 <= dimH (size x) -> 1 <= dimW (size x) ->
  dimH (size x) < 2 \/ dimW (size x) < 2 ->
  max_pool2d 2 2 x = Err OutputTooSmall.
Proof.
  intros HC H1 W1 Hs. unfold max_pool2d. rewrite !pool_out_2.
  rewrite (proj2 (Z.ltb_ge (dimC (size x)) 1)) by lia.
  rewrite (proj2 (Z.ltb_ge (dimH (size x)) 1)) by lia.
  rewrite (proj2 (Z.ltb_ge (dimW (size x)) 1)) by lia.
  cbn [orb].
  destruct Hs as [Hs | Hs].
  - assert (L : dimH (size x) / 2 < 1) by (apply Z.div_lt_upper_bound; lia).
    apply Z.ltb_lt in L. rewrite L. reflexivity.
  - assert (L : dimW (size x) / 2 < 1) by (apply Z.div_lt_upper_bound; lia).
    apply Z.ltb_lt in L. rewrite L, orb_true_r. reflexivity.
Qed.

Lemma upsample_ok m ac x :
  1 <= dimH (size x) -> 1 <= dimW (size x) ->
  upsample 2 m ac x =
  Ok (mkTensor (mkSize (dimN (size x)) (dimC (size x))
                  (dimH (size x) * 2) (dimW (size x) * 2))
        (GApply (Upsample 2 m ac) (graph x))).
Proof.
  intros HH HW. unfold upsample.
  rewrite (proj2 (Z.ltb_ge (dimH (size x)) 1)) by lia.
  rewrite (proj2 (Z.ltb_ge (dimW (size x)) 1)) by lia.
  rewrite (proj2 (Z.ltb_ge (dimH (size x) * 2) 1)) by lia.
  rewrite (proj2 (Z.ltb_ge (dimW (size x) * 2) 1)) by lia.
  reflexivity.
Qed.

Lemma conv_transpose2d_ok cin cout x :
  1 <= cin -> 1 <= cout ->
  dimC (size x) = cin -> 1 <= dimH (size x) -> 1 <= dimW (size x) ->
  conv_transpose2d cin cout 2 2 x =
  Ok (mkTensor (mkSize (dimN (size x)) cout
                  (dimH (size x) * 2) (dimW (size x) * 2))
        (GApply (ConvTranspose2d cin cout 2 2) (graph x))).
Proof.
  intros Hin Hout HC HH HW. unfold conv_transpose2d.
  rewrite (proj2 (Z.ltb_ge cin 1) Hin), (proj2 (Z.ltb_ge cout 1) Hout).
  rewrite (proj2 (Z.eqb_eq _ _) HC).
  rewrite (proj2 (Z.ltb_ge (dimH (size x)) 1)) by lia.
  rewrite (proj2 (Z.ltb_ge (dimW (size x)) 1)) by lia.
  cbn [negb orb].
  replace ((dimH (size x) - 1) * 2 + 2) with (dimH (size x) * 2) by lia.
  replace ((dimW (size x) - 1) * 2 + 2) with (dimW (size x) * 2) by lia.
  reflexivity.
Qed.

(** The two pad amounts of one axis always add up to the difference, for a
    difference of either sign. *)
Lemma pad_split_sum (d : Z) : d / 2 + (d - d / 2) = d.
Proof. lia. Qed.

Lemma pad_split_sign (d : Z) :
  (0 <= d -> 0 <= d / 2 /\ 0 <= d - d / 2) /\
  (d < 0 -> d / 2 < 0 /\ d - d / 2 <= 0).
Proof.
  split; intros Hd.
  - pose proof (Z.div_pos d 2 Hd eq_refl).
    assert (d / 2 <= d) by (apply Z.div_le_upper_bound; lia). lia.
  - assert (d / 2 < 0) by (apply Z.div_lt_upper_bound; lia).
    assert (d <= 2 * (d / 2) + 1).
    { pose proof (Z.mod_pos_bound d 2 eq_refl).
      pose proof (Z.div_mod d 2 ltac:(lia)). lia. }
    lia.
Qed.

Lemma pad_axis_split (i j : Z) :
  0 <= i -> 0 <= j ->
  pad_axis i ((j - i) / 2) ((j - i) - (j - i) / 2) = Some j.
Proof.
  intros Hi Hj. unfold pad_axis.
  destruct (pad_split_sign (j - i)) as [Hpos Hneg].
  assert (L : 0 <= i + Z.min ((j - i) / 2) 0 + Z.min ((j - i) - (j - i) / 2) 0).
  { destruct (Z_lt_le_dec (j - i) 0) as [Hd | Hd].
    - destruct (Hneg Hd). rewrite !Z.min_l by lia. lia.
    - destruct (Hpos Hd). rewrite !Z.min_r by lia. lia. }
  rewrite (proj2 (Z.ltb_ge _ _) L). f_equal. lia.
Qed.

Lemma F_pad_Up_ok x1 x2 :
  0 <= dimH (size x1) -> 0 <= dimW (size x1) ->
  0 <= dimH (size x2) -> 0 <= dimW (size x2) ->
  F_pad x1 (Up_pads x1 x2) =
  Ok (mkTensor (mkSize (dimN (size x1)) (dimC (size x1))
                  (dimH (size x2)) (dimW (size x2)))
        (let '(pl, pr, pt, pb) := Up_pads x1 x2 in
         GPad pl pr pt pb (graph x1))).
Proof.
  intros H1 W1 H2 W2. unfold F_pad, Up_pads.
  rewrite !pad_axis_split by assumption. reflexivity.
Qed.

Lemma torch_cat_pair_ok x2 x1 :
  dimN (size x1) = dimN (size x2) ->
  dimH (size x1) = dimH (size x2) ->
  dimW (size x1) = dimW (size x2) ->
  torch_cat [x2; x1] 1 =
  Ok (mkTensor (mkSize (dimN (size x2)) (dimC (size x2) + dimC (size x1))
                  (dimH (size x2)) (dimW (size x2)))
        (GCat 1 [graph x2; graph x1])).
Proof.
  intros HN HH HW. unfold torch_cat, size_eqb, set_dim, get_dim.
  cbn [Z.ltb Z.eqb Z.compare orb forallb fold_right map dimN dimC dimH dimW
       Pos.compare].
  rewrite HN, HH, HW, !Z.eqb_refl. cbn [andb].
  rewrite Z.add_0_r. reflexivity.
Qed.

(** ** ConvBlock (DoubleConv) *)

Lemma DoubleConv_two_passes training c_in c_out mid x :
  forward training (DoubleConv c_in c_out mid) x =
  ConvBlock_spec training c_in (mid_or c_out mid) c_out x.
Proof.
  unfold DoubleConv, ConvBlock_spec, conv_bn_relu, mid_or.
  cbn [forward].
  destruct (conv2d c_in _ 3 1 false x) as [y1 | e]; cbn [bind]; [ | reflexivity ].
  destruct (batch_norm2d training _ y1) as [y2 | e]; cbn [bind]; [ | reflexivity ].
  unfold relu at 1 3. cbn [bind].
  destruct (conv2d _ c_out 3 1 false _) as [y3 | e]; cbn [bind]; [ | reflexivity ].
  destruct (batch_norm2d training c_out y3) as [y4 | e]; cbn [bind]; reflexivity.
Qed.

Lemma conv_bn_relu_ok training c_in c_out x :
  1 <= c_out ->
  dimC (size x) = c_in -> dc_ok training x ->
  conv_bn_relu training c_in c_out x =
  Ok (mkTensor (mkSize (dimN (size x)) c_out (dimH (size x)) (dimW (size x)))
        (conv_bn_relu_graph c_in c_out (graph x))).
Proof.
  intros Hout HC (HH & HW & Hbn). unfold conv_bn_relu.
  rewrite conv2d_ok by (assumption || lia). cbn [bind].
  rewrite batch_norm2d_ok; cbn [size dimN dimC dimH dimW].
  - cbn [bind]. unfold relu, conv_bn_relu_graph. cbn [size graph].
    replace (dimH (size x) + 2 * 1 - 3 + 1) with (dimH (size x)) by lia.
    replace (dimW (size x) + 2 * 1 - 3 + 1) with (dimW (size x)) by lia.
    reflexivity.
  - reflexivity.
  - replace (dimH (size x) + 2 * 1 - 3 + 1) with (dimH (size x)) by lia.
    replace (dimW (size x) + 2 * 1 - 3 + 1) with (dimW (size x)) by lia.
    exact Hbn.
Qed.

Lemma conv_bn_relu_fails training c_in c_out x :
  dimC (size x) = c_in -> ~ dc_ok training x ->
  size_error (conv_bn_relu training c_in c_out x).
Proof.
  intros HC Hno. unfold conv_bn_relu.
  destruct (Z_lt_le_dec c_out 1) as [Hout | Hout].
  { rewrite conv2d_empty_weight by exact Hout.
    apply Err_size_error. discriminate. }
  destruct (Z_lt_le_dec (dimH (size x)) 1) as [HH | HH].
  { rewrite conv2d_small by (assumption || lia).
    apply Err_size_error. discriminate. }
  destruct (Z_lt_le_dec (dimW (size x)) 1) as [HW | HW].
  { rewrite conv2d_small by (assumption || lia).
    apply Err_size_error. discriminate. }
  rewrite conv2d_ok by (assumption || lia). cbn [bind].
  destruct training.
  - destruct (Z.eq_dec (dimN (size x) * dimH (size x) * dimW (size x)) 1)
      as [E | E].
    + rewrite batch_norm2d_single.
      * apply Err_size_error. discriminate.
      * cbn [size dimN dimH dimW].
        replace (dimH (size x) + 2 * 1 - 3 + 1) with (dimH (size x)) by lia.
        replace (dimW (size x) + 2 * 1 - 3 + 1) with (dimW (size x)) by lia.
        exact E.
    + exfalso. apply Hno. repeat split; try assumption. intros _. exact E.
  - exfalso. apply Hno. repeat split; try assumption. intros D. discriminate D.
Qed.

Lemma dc_ok_dec training x : dc_ok training x \/ ~ dc_ok training x.
Proof.
  unfold dc_ok, bn_ok.
  destruct (Z_lt_le_dec (dimH (size x)) 1); [ right; lia | ].
  destruct (Z_lt_le_dec (dimW (size x)) 1); [ right; lia | ].
  destruct training.
  - destruct (Z.eq_dec (dimN (size x) * dimH (size x) * dimW (size x)) 1).
    + right. intros (_ & _ & H). apply H; [ reflexivity | assumption ].
    + left. repeat split; try assumption. intros _. assumption.
  - left. repeat split; try assumption. intros D. discriminate D.
Qed.

Lemma DoubleConv_forward_ok training c_in c_out mid x :
  1 <= c_out -> 1 <= mid_or c_out mid ->
  dimC (size x) = c_in -> dc_ok training x ->
  forward training (DoubleConv c_in c_out mid) x =
  Ok (mkTensor (mkSize (dimN (size x)) c_out (dimH (size x)) (dimW (size x)))
        (DoubleConv_graph c_in (mid_or c_out mid) c_out (graph x))).
Proof.
  intros Hout Hmid HC Hok. rewrite DoubleConv_two_passes. unfold ConvBlock_spec.
  rewrite conv_bn_relu_ok by assumption. cbn [bind].
  rewrite conv_bn_relu_ok; [ reflexivity | exact Hout | reflexivity | exact Hok ].
Qed.

Lemma DoubleConv_forward_fails training c_in c_out mid x :
  dimC (size x) = c_in -> ~ dc_ok training x ->
  size_error (forward training (DoubleConv c_in c_out mid) x).
Proof.
  intros HC Hno. rewrite DoubleConv_two_passes. unfold ConvBlock_spec.
  apply bind_size_error. apply conv_bn_relu_fails; assumption.
Qed.

(** ** DownBlock *)

Lemma Down_forward_steps training c_in c_out x :
  forward training (Down c_in c_out) x = DownBlock_spec training c_in c_out x.
Proof.
  unfold Down, DownBlock_spec.
  change (forward training (Sequential [MaxPool2d 2 2; DoubleConv c_in c_out None]) x)
    with (y <- max_pool2d 2 2 x ;;
          z <- forward training (DoubleConv c_in c_out None) y ;; Ok z).
  destruct (max_pool2d 2 2 x) as [y | e]; cbn [bind]; [ | reflexivity ].
  apply bind_ret.
Qed.

Lemma bn_ok_big training n h w : 2 <= h -> bn_ok training n h w.
Proof.
  intros Hh _ E.
  replace (n * h * w) with (h * (n * w)) in E by ring.
  apply Z.mul_eq_1 in E. lia.
Qed.

Lemma down_ok_dec training x : down_ok training x \/ ~ down_ok training x.
Proof.
  unfold down_ok, bn_ok.
  destruct (Z_lt_le_dec (dimH (size x)) 2); [ right; lia | ].
  destruct (Z_lt_le_dec (dimW (size x)) 2); [ right; lia | ].
  destruct training.
  - destruct (Z.eq_dec (dimN (size x) * (dimH (size x) / 2) * (dimW (size x) / 2)) 1).
    + right. intros (_ & _ & H). apply H; [ reflexivity | assumption ].
    + left. repeat split; try assumption. intros _. assumption.
  - left. repeat split; try assumption. intros D. discriminate D.
Qed.

Lemma Down_forward_ok training c_in c_out x :
  1 <= c_in -> 1 <= c_out ->
  dimC (size x) = c_in -> down_ok training x ->
  forward training (Down c_in c_out) x =
  Ok (mkTensor (mkSize (dimN (size x)) c_out
                  (dimH (size x) / 2) (dimW (size x) / 2))
        (DoubleConv_graph c_in c_out c_out
           (GApply (MaxPool2d 2 2) (graph x)))).
Proof.
  intros Hin Hout HC (HH & HW & Hbn).
  rewrite Down_forward_steps. unfold DownBlock_spec.
  rewrite max_pool2d_ok by (assumption || lia). cbn [bind].
  rewrite DoubleConv_forward_ok;
    [ reflexivity | exact Hout | exact Hout | exact HC | ].
  unfold dc_ok. cbn [size dimN dimC dimH dimW].
  repeat split; [ apply Z.div_le_lower_bound; lia
                | apply Z.div_le_lower_bound; lia | exact Hbn ].
Qed.

Lemma Down_forward_fails training c_in c_out x :
  dimC (size x) = c_in -> ~ down_ok training x ->
  size_error (forward training (Down c_in c_out) x).
Proof.
  intros HC Hno. rewrite Down_forward_steps. unfold DownBlock_spec.
  destruct (Z_lt_le_dec (dimC (size x)) 1) as [C1 | C1].
  { rewrite max_pool2d_empty by lia. apply Err_size_error. discriminate. }
  destruct (Z_lt_le_dec (dimH (size x)) 1) as [H1 | H1].
  { rewrite max_pool2d_empty by lia. apply Err_size_error. discriminate. }
  destruct (Z_lt_le_dec (dimW (size x)) 1) as [W1 | W1].
  { rewrite max_pool2d_empty by lia. apply Err_size_error. discriminate. }
  destruct (Z_lt_le_dec (dimH (size x)) 2) as [HH | HH].
  { rewrite max_pool2d_small by lia. apply Err_size_error. discriminate. }
  destruct (Z_lt_le_dec (dimW (size x)) 2) as [HW | HW].
  { rewrite max_pool2d_small by lia. apply Err_size_error. discriminate. }
  rewrite max_pool2d_ok by assumption. cbn [bind].
  apply DoubleConv_forward_fails; [ exact HC | ].
  intros (_ & _ & Hbn). apply Hno. repeat split; assumption.
Qed.

(** ** UpBlock *)

Lemma Up_forward_via_cat training self x1 x2 :
  Up_forward training self x1 x2 =
  (xc <- Up_forward_cat training self x1 x2 ;; forward training (conv self) xc).
Proof.
  unfold Up_forward, Up_forward_cat.
  destruct (forward training (up self) x1) as [u | e]; cbn [bind]; [ | reflexivity ].
  change (F_pad u _) with (F_pad u (Up_pads u x2)).
  destruct (F_pad u (Up_pads u x2)) as [p | e]; cbn [bind]; [ | reflexivity ].
  destruct (torch_cat [x2; p] 1) as [xc | e]; cbn [bind]; [ | reflexivity ].
  apply bind_ret.
Qed.

(** [Up.forward] pads the upsampled tensor by [Up_pads]. *)
Lemma Up_forward_pads training self x1 x2 :
  Up_forward training self x1 x2 =
  (u <- forward training (up self) x1 ;;
   p <- F_pad u (Up_pads u x2) ;;
   xc <- torch_cat [x2; p] 1 ;;
   forward training (conv self) xc).
Proof.
  rewrite Up_forward_via_cat. unfold Up_forward_cat.
  destruct (forward training (up self) x1) as [u | e]; cbn [bind]; [ | reflexivity ].
  destruct (F_pad u (Up_pads u x2)) as [p | e]; cbn [bind]; reflexivity.
Qed.


Lemma Up_forward_cat_ok training c_in c_out bil x1 x2 :
  2 <= c_in ->
  dimN (size x1) = dimN (size x2) ->
  1 <= dimH (size x1) -> 1 <= dimW (size x1) ->
  0 <= dimH (size x2) -> 0 <= dimW (size x2) ->
  (bil = false -> dimC (size x1) = c_in) ->
  Up_forward_cat training (Up_init c_in c_out bil) x1 x2 =
  Ok (mkTensor
        (mkSize (dimN (size x2))
           (dimC (size x2) + (if bil then dimC (size x1) else c_in / 2))
           (dimH (size x2)) (dimW (size x2)))
        (Up_cat_graph (up (Up_init c_in c_out bil)) x1 x2)).
Proof.
  intros Hin HN H1 W1 H2 W2 HC. unfold Up_forward_cat.
  assert (Hhalf : 1 <= c_in / 2) by (apply Z.div_le_lower_bound; lia).
  destruct bil; cbn [Up_init up forward].
  - rewrite upsample_ok by assumption. cbn [bind].
    rewrite F_pad_Up_ok by (cbn [size dimH dimW]; lia). cbn [bind].
    rewrite torch_cat_pair_ok by (cbn [size dimN dimH dimW]; auto).
    reflexivity.
  - rewrite conv_transpose2d_ok by (auto || lia). cbn [bind].
    rewrite F_pad_Up_ok by (cbn [size dimH dimW]; lia). cbn [bind].
    rewrite torch_cat_pair_ok by (cbn [size dimN dimH dimW]; auto).
    reflexivity.
Qed.

Lemma Up_forward_ok training c_in c_out bil x1 x2 :
  2 <= c_in -> 1 <= c_out ->
  dimN (size x1) = dimN (size x2) ->
  1 <= dimH (size x1) -> 1 <= dimW (size x1) ->
  (bil = false -> dimC (size x1) = c_in) ->
  dimC (size x2) + (if bil then dimC (size x1) else c_in / 2) = c_in ->
  dc_ok training x2 ->
  Up_forward training (Up_init c_in c_out bil) x1 x2 =
  Ok (mkTensor
        (mkSize (dimN (size x2)) c_out (dimH (size x2)) (dimW (size x2)))
        (DoubleConv_graph c_in (if bil then c_in / 2 else c_out) c_out
           (Up_cat_graph (up (Up_init c_in c_out bil)) x1 x2))).
Proof.
  intros Hin Hout HN H1 W1 HC Hsum (H2 & W2 & Hbn).
  assert (Hhalf : 1 <= c_in / 2) by (apply Z.div_le_lower_bound; lia).
  rewrite Up_forward_via_cat.
  rewrite Up_forward_cat_ok by (auto || lia). cbn [bind].
  destruct bil; cbn [Up_init conv].
  - rewrite DoubleConv_forward_ok;
      [ reflexivity | exact Hout | exact Hhalf | exact Hsum | ].
    repeat split; assumption.
  - rewrite DoubleConv_forward_ok;
      [ reflexivity | exact Hout | exact Hout | exact Hsum | ].
    repeat split; assumption.
Qed.

(** ** The whole network *)

Ltac head_call r :=
  lazymatch r with
  | bind ?r' _ => head_call r'
  | _ => r
  end.

Ltac step_both :=
  match goal with
  | |- bind ?r _ = _ =>
      let h := head_call r in
      destruct h; cbn [bind result_map]; [ | reflexivity ]
  end.

Lemma UNet_forward_via_stages training self x :
  UNet_forward training self x =
  result_map s_logits (UNet_forward_stages training self x).
Proof.
  unfold UNet_forward, UNet_forward_stages.
  do 5 step_both.
  do 4 (rewrite Up_forward_via_cat; do 2 step_both).
  step_both. reflexivity.
Qed.

Lemma conv_Up_init c_in c_out bil :
  conv (Up_init c_in c_out bil) =
  DoubleConv c_in c_out (if bil then Some (c_in / 2) else None).
Proof. destruct bil; reflexivity. Qed.

Lemma div_2_2 (a : Z) : a / 2 / 2 = a / 4.
Proof. rewrite Z.div_div by lia. reflexivity. Qed.

Lemma div_4_2 (a : Z) : a / 4 / 2 = a / 8.
Proof. rewrite Z.div_div by lia. reflexivity. Qed.

Lemma div_8_2 (a : Z) : a / 8 / 2 = a / 16.
Proof. rewrite Z.div_div by lia. reflexivity. Qed.

Ltac div_lia := Z.to_euclidean_division_equations; lia.

Lemma unet_ok_dec training x : unet_ok training x \/ ~ unet_ok training x.
Proof.
  unfold unet_ok, bn_ok.
  destruct (Z_lt_le_dec (dimH (size x)) 16); [ right; lia | ].
  destruct (Z_lt_le_dec (dimW (size x)) 16); [ right; lia | ].
  destruct training.
  - destruct (Z.eq_dec (dimN (size x) * (dimH (size x) / 16) * (dimW (size x) / 16)) 1).
    + right. intros (_ & _ & H). apply H; [ reflexivity | assumption ].
    + left. repeat split; try assumption. intros _. assumption.
  - left. repeat split; try assumption. intros D. discriminate D.
Qed.

Ltac norm_sizes :=
  cbn [bind size graph dimN dimC dimH dimW];
  rewrite ?div_2_2, ?div_4_2, ?div_8_2.

Ltac pos :=
  cbn [mid_or];
  first [ lia
        | div_lia
        | match goal with
          | |- context [if ?c then _ else _] =>
              destruct c; cbn [mid_or]; div_lia
          end ].

Lemma UNet_stages_ok training ic nc bil b x :
  valid_config ic nc b ->
  dimC (size x) = ic -> unet_ok training x ->
  exists st,
    UNet_forward_stages training (UNet_init ic nc bil b) x = Ok st /\
    stage_sizes st =
    UNet_sizes nc bil b (dimN (size x)) (dimH (size x)) (dimW (size x)).
Proof.
  intros (_ & Hnc & Hb) HC (HH & HW & Hbn).
  unfold UNet_forward_stages, UNet_init.
  cbn [in_conv down1 down2 down3 down4 up1 up2 up3 up4 out_conv].
  rewrite !conv_Up_init.
  (* encoder *)
  rewrite DoubleConv_forward_ok;
    [ | pos | pos | exact HC | repeat split; try lia; apply bn_ok_big; lia ].
  norm_sizes.
  rewrite Down_forward_ok;
    [ | pos | pos | reflexivity
      | unfold down_ok; norm_sizes; repeat split; try lia;
        apply bn_ok_big; div_lia ].
  norm_sizes.
  rewrite Down_forward_ok;
    [ | pos | pos | reflexivity
      | unfold down_ok; norm_sizes; repeat split; try div_lia;
        apply bn_ok_big; div_lia ].
  norm_sizes.
  rewrite Down_forward_ok;
    [ | pos | pos | reflexivity
      | unfold down_ok; norm_sizes; repeat split; try div_lia;
        apply bn_ok_big; div_lia ].
  norm_sizes.
  rewrite Down_forward_ok;
    [ | pos | pos | reflexivity
      | unfold down_ok; norm_sizes; repeat split; try div_lia; exact Hbn ].
  norm_sizes.
  (* decoder *)
  rewrite Up_forward_cat_ok;
    [ | norm_sizes; try reflexivity; try div_lia .. ].
  2: { intros ->. norm_sizes. div_lia. }
  norm_sizes.
  rewrite DoubleConv_forward_ok;
    [ | pos | pos | norm_sizes; destruct bil; div_lia
      | unfold dc_ok; norm_sizes; repeat split; try div_lia;
        apply bn_ok_big; div_lia ].
  norm_sizes.
  rewrite Up_forward_cat_ok;
    [ | norm_sizes; try reflexivity; try div_lia .. ].
  2: { intros ->. norm_sizes. div_lia. }
  norm_sizes.
  rewrite DoubleConv_forward_ok;
    [ | pos | pos | norm_sizes; destruct bil; div_lia
      | unfold dc_ok; norm_sizes; repeat split; try div_lia;
        apply bn_ok_big; div_lia ].
  norm_sizes.
  rewrite Up_forward_cat_ok;
    [ | norm_sizes; try reflexivity; try div_lia .. ].
  2: { intros ->. norm_sizes. div_lia. }
  norm_sizes.
  rewrite DoubleConv_forward_ok;
    [ | pos | pos | norm_sizes; destruct bil; div_lia
      | unfold dc_ok; norm_sizes; repeat split; try div_lia;
        apply bn_ok_big; div_lia ].
  norm_sizes.
  rewrite Up_forward_cat_ok;
    [ | norm_sizes; try reflexivity; try div_lia .. ].
  2: { intros ->. norm_sizes. div_lia. }
  norm_sizes.
  rewrite DoubleConv_forward_ok;
    [ | pos | pos | norm_sizes; destruct bil; div_lia
      | unfold dc_ok; norm_sizes; repeat split; try lia;
        apply bn_ok_big; lia ].
  norm_sizes.
  (* output layer *)
  unfold OutConv. cbn [forward].
  rewrite conv2d_ok by (norm_sizes; lia || reflexivity).
  norm_sizes.
  eexists. split; [ reflexivity | ].
  unfold stage_sizes, UNet_sizes.
  cbn [map s_x1 s_x2 s_x3 s_x4 s_x5 s_cat1 s_up1 s_cat2 s_up2 s_cat3 s_up3
       s_cat4 s_up4 s_logits size].
  replace (dimH (size x) + 2 * 0 - 1 + 1) with (dimH (size x)) by lia.
  replace (dimW (size x) + 2 * 0 - 1 + 1) with (dimW (size x)) by lia.
  destruct bil; repeat (f_equal; try div_lia).
Qed.

Lemma UNet_stages_fails training ic nc bil b x :
  valid_config ic nc b ->
  dimC (size x) = ic -> ~ unet_ok training x ->
  size_error (UNet_forward_stages training (UNet_init ic nc bil b) x).
Proof.
  intros (_ & Hnc & Hb) HC Hno.
  unfold UNet_forward_stages, UNet_init.
  cbn [in_conv down1 down2 down3 down4 up1 up2 up3 up4 out_conv].
  destruct (dc_ok_dec training x) as [K0 | K0];
    [ | apply bind_size_error, DoubleConv_forward_fails; assumption ].
  rewrite DoubleConv_forward_ok by (assumption || pos). cbn [bind].
  match goal with |- size_error (bind (forward _ _ ?t) _) =>
    destruct (down_ok_dec training t) as [K1 | K1];
    [ | apply bind_size_error, Down_forward_fails; [ reflexivity | exact K1 ] ]
  end.
  rewrite Down_forward_ok by (reflexivity || exact K1 || pos). cbn [bind].
  match goal with |- size_error (bind (forward _ _ ?t) _) =>
    destruct (down_ok_dec training t) as [K2 | K2];
    [ | apply bind_size_error, Down_forward_fails; [ reflexivity | exact K2 ] ]
  end.
  rewrite Down_forward_ok by (reflexivity || exact K2 || pos). cbn [bind].
  match goal with |- size_error (bind (forward _ _ ?t) _) =>
    destruct (down_ok_dec training t) as [K3 | K3];
    [ | apply bind_size_error, Down_forward_fails; [ reflexivity | exact K3 ] ]
  end.
  rewrite Down_forward_ok by (reflexivity || exact K3 || pos). cbn [bind].
  match goal with |- size_error (bind (forward _ _ ?t) _) =>
    destruct (down_ok_dec training t) as [K4 | K4];
    [ | apply bind_size_error, Down_forward_fails; [ reflexivity | exact K4 ] ]
  end.
  exfalso. apply Hno.
  unfold down_ok in K1, K2, K3, K4.
  cbn [size dimN dimC dimH dimW] in K1, K2, K3, K4.
  destruct K4 as (A & B & C).
  replace (dimH (size x) / 2 / 2 / 2 / 2) with (dimH (size x) / 16) in C
    by (rewrite !Z.div_div by lia; reflexivity).
  replace (dimW (size x) / 2 / 2 / 2 / 2) with (dimW (size x) / 16) in C
    by (rewrite !Z.div_div by lia; reflexivity).
  repeat split; [ div_lia | div_lia | exact C ].
Qed.

Lemma UNet_stages_wrong_channels training ic nc bil b x :
  valid_config ic nc b ->
  dimC (size x) <> ic ->
  UNet_forward_stages training (UNet_init ic nc bil b) x = Err ChannelMismatch.
Proof.
  intros (_ & _ & Hb) HC. unfold UNet_forward_stages, UNet_init, DoubleConv.
  cbn [in_conv forward].
  rewrite conv2d_wrong_channels by assumption. reflexivity.
Qed.

(** The forward pass returns exactly when the input has the configured
    channel count and a size the network accepts. *)
Lemma UNet_stages_inv training ic nc bil b x st :
  valid_config ic nc b ->
  UNet_forward_stages training (UNet_init ic nc bil b) x = Ok st ->
  dimC (size x) = ic /\ unet_ok training x.
Proof.
  intros Hcfg E.
  destruct (Z.eq_dec (dimC (size x)) ic) as [HC | HC].
  - split; [ exact HC | ].
    destruct (unet_ok_dec training x) as [K | K]; [ exact K | ].
    destruct (UNet_stages_fails training ic nc bil b x Hcfg HC K)
      as (e & E' & _).
    rewrite E in E'. discriminate E'.
  - rewrite UNet_stages_wrong_channels in E by assumption. discriminate E.
Qed.

Lemma UNet_forward_ok training ic nc bil b x :
  valid_config ic nc b ->
  dimC (size x) = ic -> unet_ok training x ->
  exists y,
    UNet_forward training (UNet_init ic nc bil b) x = Ok y /\
    size y = mkSize (dimN (size x)) nc (dimH (size x)) (dimW (size x)).
Proof.
  intros Hcfg HC Hok.
  destruct (UNet_stages_ok training ic nc bil b x Hcfg HC Hok) as (st & E & S).
  exists (s_logits st). rewrite UNet_forward_via_stages, E. split; [ reflexivity | ].
  unfold stage_sizes, UNet_sizes in S. cbn [map] in S.
  injection S as _ _ _ _ _ _ _ _ _ _ _ _ _ S. exact S.
Qed.

Lemma UNet_forward_inv training ic nc bil b x y :
  valid_config ic nc b ->
  UNet_forward training (UNet_init ic nc bil b) x = Ok y ->
  dimC (size x) = ic /\ unet_ok training x.
Proof.
  intros Hcfg. rewrite UNet_forward_via_stages.
  destruct (UNet_forward_stages training (UNet_init ic nc bil b) x) as [st | e] eqn:E;
    cbn [result_map]; [ | discriminate ].
  intros _. exact (UNet_stages_inv _ _ _ _ _ _ _ Hcfg E).
Qed.

Ltac inv_bind E :=
  match type of E with
  | bind ?r _ = Ok _ =>
      let h := head_call r in
      destruct h eqn:?; cbn [bind] in E; [ | discriminate E ]
  end.

(** The tensors [UNet_forward_stages] records are the values [UNet.forward]
    computes one after the other. *)
Lemma UNet_forward_stages_sound training self x st :
  UNet_forward_stages training self x = Ok st ->
  forward training (in_conv self) x = Ok (s_x1 st) /\
  forward training (down1 self) (s_x1 st) = Ok (s_x2 st) /\
  forward training (down2 self) (s_x2 st) = Ok (s_x3 st) /\
  forward training (down3 self) (s_x3 st) = Ok (s_x4 st) /\
  forward training (down4 self) (s_x4 st) = Ok (s_x5 st) /\
  (Up_forward_cat training (up1 self) (s_x5 st) (s_x4 st) = Ok (s_cat1 st) /\
   Up_forward training (up1 self) (s_x5 st) (s_x4 st) = Ok (s_up1 st)) /\
  (Up_forward_cat training (up2 self) (s_up1 st) (s_x3 st) = Ok (s_cat2 st) /\
   Up_forward training (up2 self) (s_up1 st) (s_x3 st) = Ok (s_up2 st)) /\
  (Up_forward_cat training (up3 self) (s_up2 st) (s_x2 st) = Ok (s_cat3 st) /\
   Up_forward training (up3 self) (s_up2 st) (s_x2 st) = Ok (s_up3 st)) /\
  (Up_forward_cat training (up4 self) (s_up3 st) (s_x1 st) = Ok (s_cat4 st) /\
   Up_forward training (up4 self) (s_up3 st) (s_x1 st) = Ok (s_up4 st)) /\
  forward training (out_conv self) (s_up4 st) = Ok (s_logits st).
Proof.
  intros E. unfold UNet_forward_stages in E.
  do 14 inv_bind E.
  injection E as <-.
  cbn [s_x1 s_x2 s_x3 s_x4 s_x5 s_cat1 s_up1 s_cat2 s_up2 s_cat3 s_up3
       s_cat4 s_up4 s_logits].
  rewrite !Up_forward_via_cat.
  repeat (match goal with
          | H : _ = Ok _ |- _ => rewrite H
          end; cbn [bind]).
  repeat split; reflexivity.
Qed.

(** * The claims of the specification *)

Local Open Scope string_scope.
Local Open Scope Z_scope.

(** ** C1: output size of the whole network *)

(** C1, as stated, fails.  A freshly constructed network is in training mode;
    on the input [(1, 1, 16, 16)], whose height and width are divisible by 16,
    the deepest ConvBlock receives one value per channel and its batch
    normalisation raises.  On the empty input [(1, 1, 0, 0)] (0 is divisible
    by 16) the first convolution raises, in either mode. *)
Lemma UNet_forward_16_training_raises :
  UNet_forward true (UNet_init 1 4 true 64) (input_tensor "x" 1 1 16 16)
  = Err SingleValuePerChannel /\
  UNet_forward false (UNet_init 1 4 true 64) (input_tensor "x" 1 1 0 0)
  = Err KernelTooLarge.
Proof. split; vm_compute; reflexivity. Qed.

(** C1, amended.  For every configuration and either upsampling strategy, on
    every non-empty input [(N, C_in, H, W)] with [H] and [W] divisible by 16
    the forward pass returns a tensor of size [(N, num_classes, H, W)],
    provided that in training mode [N * (H/16) * (W/16)] is not 1 (in
    evaluation mode there is no such condition). *)
Theorem UNet_forward_shape training ic nc bil b x :
  valid_config ic nc b ->
  nonempty x ->
  dimC (size x) = ic ->
  (16 | dimH (size x)) -> (16 | dimW (size x)) ->
  bn_ok training (dimN (size x)) (dimH (size x) / 16) (dimW (size x) / 16) ->
  exists y,
    UNet_forward training (UNet_init ic nc bil b) x = Ok y /\
    size y = mkSize (dimN (size x)) nc (dimH (size x)) (dimW (size x)).
Proof.
  intros Hcfg (_ & _ & HH & HW) HC [qh Eh] [qw Ew] Hbn.
  apply UNet_forward_ok; [ exact Hcfg | exact HC | ].
  repeat split; [ lia | lia | exact Hbn ].
Qed.

(** The first concrete scenario of the specification: base width 64, input
    [(1, 1, 256, 256)], bilinear strategy, 4 classes, in training mode. *)
Lemma UNet_forward_shape_witness :
  exists y,
    UNet_forward true (UNet_init 1 4 true 64) (input_tensor "x" 1 1 256 256)
    = Ok y /\
    size y = mkSize 1 4 256 256.
Proof.
  apply (UNet_forward_shape true 1 4 true 64 (input_tensor "x" 1 1 256 256)).
  - unfold valid_config. lia.
  - unfold nonempty. simpl. lia.
  - reflexivity.
  - exists 16. reflexivity.
  - exists 16. reflexivity.
  - intros _. vm_compute. discriminate.
Defined.

(** The second concrete scenario: base width 32, input [(2, 3, 128, 160)],
    transpose-convolution strategy, 2 classes. *)
Example UNet_forward_scenario_2 :
  output_size
    (UNet_forward true (UNet_init 3 2 false 32) (input_tensor "x" 2 3 128 160))
  = Some (mkSize 2 2 128 160).
Proof. vm_compute. reflexivity. Qed.

(** ** C2: the steps of the UpBlock *)



(** ** C3: channel widths of encoder and decoder *)

(** C3, as stated, fails.  With the interpolation strategy and base width 64
    the deepest encoder level has 512 = 8b channels, not 16b = 1024, and the
    decoder widths are 256, 128, 64, 64: the last decoder level is not
    halved.  The factor is thus applied to the deepest encoder level and to
    the first three decoder levels only. *)
Lemma UNet_bilinear_widths_64 :
  down4 (UNet_init 1 4 true 64) = Down 512 512 /\
  up4 (UNet_init 1 4 true 64) = Up_init 128 64 true /\
  result_map encoder_widths
    (UNet_forward_stages true (UNet_init 1 4 true 64)
       (input_tensor "x" 1 1 32 32))
  = Ok [64; 128; 256; 512; 512] /\
  result_map decoder_widths
    (UNet_forward_stages true (UNet_init 1 4 true 64)
       (input_tensor "x" 1 1 32 32))
  = Ok [256; 128; 64; 64].
Proof. repeat split; vm_compute; reflexivity. Qed.

(** C3, amended.  For every base width [b], the encoder levels output
    [b, 2b, 4b, 8b, 16b/f] channels and the decoder levels [8b/f, 4b/f, 2b/f, b],
    where [f] is 2 for the interpolation strategy and 1 for
    transpose-convolution.  With transpose-convolution the decoder mirrors the
    encoder; with interpolation the deepest encoder level and the first three
    decoder levels are halved, the last decoder level is not. *)
Theorem UNet_channel_widths training ic nc bil b x :
  valid_config ic nc b ->
  nonempty x ->
  dimC (size x) = ic ->
  unet_ok training x ->
  exists st,
    UNet_forward_stages training (UNet_init ic nc bil b) x = Ok st /\
    encoder_widths st =
      [b; 2 * b; 4 * b; 8 * b; if bil then 8 * b else 16 * b] /\
    decoder_widths st =
      (if bil then [4 * b; 2 * b; b; b] else [8 * b; 4 * b; 2 * b; b]).
Proof.
  intros Hcfg _ HC Hok.
  destruct (UNet_stages_ok training ic nc bil b x Hcfg HC Hok) as (st & E & S).
  exists st. split; [ exact E | ].
  unfold stage_sizes, UNet_sizes in S. cbn [map] in S.
  injection S as S1 S2 S3 S4 S5 _ S7 _ S9 _ S11 _ S13 _.
  unfold encoder_widths, decoder_widths. cbn [map].
  rewrite S1, S2, S3, S4, S5, S7, S9, S11, S13. cbn [dimC].
  destruct bil; split; repeat (f_equal; try div_lia).
Qed.

Lemma UNet_channel_widths_witness :
  exists st,
    UNet_forward_stages true (UNet_init 3 2 false 32)
      (input_tensor "x" 2 3 128 160) = Ok st /\
    encoder_widths st = [32; 64; 128; 256; 512] /\
    decoder_widths st = [256; 128; 64; 32].
Proof.
  apply (UNet_channel_widths true 3 2 false 32 (input_tensor "x" 2 3 128 160)).
  - unfold valid_config. lia.
  - unfold nonempty. simpl. lia.
  - reflexivity.
  - unfold unet_ok, bn_ok. simpl.
    repeat split; try lia; intros _; vm_compute; discriminate.
Defined.

(** ** C4: every decoder stage returns a tensor of its skip tensor's size *)

(** C4.  On every input (whether or not its height and width are divisible
    by 16, whether or not the intermediate sizes are odd), each of the four
    UpBlocks of a forward pass returns a tensor whose height and width are
    those of the skip tensor it was given; and the four stages are reached
    for every input of the configured channel count that the encoder accepts
    (height and width at least 16). *)
Theorem decoder_matches_skip training ic nc bil b x :
  valid_config ic nc b ->
  let net := UNet_init ic nc bil b in
  (forall st,
     UNet_forward_stages training net x = Ok st ->
     (Up_forward training (up1 net) (s_x5 st) (s_x4 st) = Ok (s_up1 st) /\
      spatial (s_up1 st) = spatial (s_x4 st)) /\
     (Up_forward training (up2 net) (s_up1 st) (s_x3 st) = Ok (s_up2 st) /\
      spatial (s_up2 st) = spatial (s_x3 st)) /\
     (Up_forward training (up3 net) (s_up2 st) (s_x2 st) = Ok (s_up3 st) /\
      spatial (s_up3 st) = spatial (s_x2 st)) /\
     (Up_forward training (up4 net) (s_up3 st) (s_x1 st) = Ok (s_up4 st) /\
      spatial (s_up4 st) = spatial (s_x1 st)))
  /\
  (dimC (size x) = ic -> unet_ok training x ->
   exists st, UNet_forward_stages training net x = Ok st).
Proof.
  intros Hcfg net. split.
  - intros st E.
    destruct (UNet_forward_stages_sound _ _ _ _ E)
      as (_ & _ & _ & _ & _ & (_ & U1) & (_ & U2) & (_ & U3) & (_ & U4) & _).
    destruct (UNet_stages_inv _ _ _ _ _ _ _ Hcfg E) as (HC & Hok).
    destruct (UNet_stages_ok training ic nc bil b x Hcfg HC Hok)
      as (st' & E' & S).
    unfold net in E. rewrite E in E'. injection E' as <-.
    unfold stage_sizes, UNet_sizes in S. cbn [map] in S.
    injection S as S1 S2 S3 S4 _ _ S7 _ S9 _ S11 _ S13 _.
    unfold spatial.
    rewrite S1, S2, S3, S4, S7, S9, S11, S13. cbn [dimH dimW].
    repeat split; (assumption || reflexivity).
  - intros HC Hok.
    destruct (UNet_stages_ok training ic nc bil b x Hcfg HC Hok)
      as (st & E & _).
    exists st. exact E.
Qed.

(** An input of size 37 x 50: the intermediate heights are 18, 9, 4, 2. *)
Lemma decoder_matches_skip_witness :
  exists st,
    UNet_forward_stages true (UNet_init 1 4 true 64)
      (input_tensor "x" 1 1 37 50) = Ok st /\
    spatial (s_up1 st) = spatial (s_x4 st) /\
    spatial (s_up2 st) = spatial (s_x3 st) /\
    spatial (s_up3 st) = spatial (s_x2 st) /\
    spatial (s_up4 st) = spatial (s_x1 st).
Proof.
  destruct (decoder_matches_skip true 1 4 true 64 (input_tensor "x" 1 1 37 50))
    as [Hmatch Hruns].
  { unfold valid_config. lia. }
  destruct Hruns as [st E].
  - reflexivity.
  - unfold unet_ok, bn_ok. simpl.
    repeat split; try lia; intros _; vm_compute; discriminate.
  - exists st. split; [ exact E | ].
    destruct (Hmatch st E) as ((_ & M1) & (_ & M2) & (_ & M3) & (_ & M4)).
    repeat split; assumption.
Defined.

(** ** C5: the ConvBlock *)

(** C5, as stated, fails.  In training mode a ConvBlock given one value per
    channel, here the input [(1, 3, 1, 1)], raises in its first batch
    normalisation; given an empty plane its first convolution raises, in
    either mode. *)
Lemma DoubleConv_single_value_raises :
  forward true (DoubleConv 3 8 None) (input_tensor "x" 1 3 1 1)
  = Err SingleValuePerChannel /\
  forward false (DoubleConv 3 8 None) (input_tensor "x" 1 3 0 5)
  = Err KernelTooLarge.
Proof. split; vm_compute; reflexivity. Qed.

(** C5, amended.  For every non-empty input tensor with [C_in] channels that,
    when the block is in training mode, holds more than one value per channel
    ([N * H * W] is not 1), the ConvBlock returns a tensor with [C_out]
    channels and the same height and width, by exactly two passes of (3x3
    convolution with padding 1 and no bias, batch normalisation, ReLU), the
    first from [C_in] to [C_mid], the second from [C_mid] to [C_out]; [C_mid]
    is [C_out] when no intermediate count is given. *)
Theorem DoubleConv_forward_spec training c_in c_out mid x :
  1 <= c_out -> 1 <= mid_or c_out mid ->
  nonempty x ->
  dimC (size x) = c_in ->
  bn_ok training (dimN (size x)) (dimH (size x)) (dimW (size x)) ->
  forward training (DoubleConv c_in c_out mid) x =
    ConvBlock_spec training c_in (mid_or c_out mid) c_out x /\
  forward training (DoubleConv c_in c_out mid) x =
    Ok (mkTensor
          (mkSize (dimN (size x)) c_out (dimH (size x)) (dimW (size x)))
          (GApply ReLU
             (GApply (BatchNorm2d c_out)
                (GApply (Conv2d (mid_or c_out mid) c_out 3 1 false)
                   (GApply ReLU
                      (GApply (BatchNorm2d (mid_or c_out mid))
                         (GApply (Conv2d c_in (mid_or c_out mid) 3 1 false)
                            (graph x)))))))) /\
  DoubleConv c_in c_out None = DoubleConv c_in c_out (Some c_out).
Proof.
  intros Hout Hmid (_ & _ & HH & HW) HC Hbn. split; [ | split ].
  - apply DoubleConv_two_passes.
  - rewrite DoubleConv_forward_ok;
      [ reflexivity | exact Hout | exact Hmid | exact HC | ].
    repeat split; assumption.
  - reflexivity.
Qed.

Lemma DoubleConv_forward_spec_witness :
  forward true (DoubleConv 3 8 None) (input_tensor "x" 2 3 5 7) =
  Ok (mkTensor (mkSize 2 8 5 7)
        (GApply ReLU
           (GApply (BatchNorm2d 8)
              (GApply (Conv2d 8 8 3 1 false)
                 (GApply ReLU
                    (GApply (BatchNorm2d 8)
                       (GApply (Conv2d 3 8 3 1 false) (GInput "x")))))))).
Proof.
  refine (proj1 (proj2 (DoubleConv_forward_spec true 3 8 None
                          (input_tensor "x" 2 3 5 7) _ _ _ _ _))).
  - lia.
  - simpl. lia.
  - unfold nonempty. simpl. lia.
  - reflexivity.
  - intros _. vm_compute. discriminate.
Defined.

(** ** C6: the DownBlock *)

(** C6.  On every input tensor the DownBlock is 2x2 max-pooling with stride 2
    followed by one ConvBlock from [C_in] to [C_out] channels.  The pooling
    keeps batch and channel counts and halves height and width rounding down
    (twice the pooled extent of an odd dimension is that dimension less one);
    it returns whenever there is a channel and height and width are at least
    2, and the block, for positive [C_in] and [C_out], then returns a tensor
    of size [(N, C_out, H // 2, W // 2)] when the ConvBlock accepts the
    pooled tensor. *)
Theorem Down_forward_spec training c_in c_out x :
  forward training (Down c_in c_out) x =
    (y <- max_pool2d 2 2 x ;; forward training (DoubleConv c_in c_out None) y)
  /\
  (forall y, max_pool2d 2 2 x = Ok y ->
     size y = mkSize (dimN (size x)) (dimC (size x))
                (dimH (size x) / 2) (dimW (size x) / 2) /\
     (dimH (size x) mod 2 = 1 -> 2 * dimH (size y) = dimH (size x) - 1) /\
     (dimW (size x) mod 2 = 1 -> 2 * dimW (size y) = dimW (size x) - 1))
  /\
  (1 <= dimC (size x) -> 2 <= dimH (size x) -> 2 <= dimW (size x) ->
   exists y, max_pool2d 2 2 x = Ok y)
  /\
  (1 <= c_in -> 1 <= c_out ->
   dimC (size x) = c_in -> down_ok training x ->
   forward training (Down c_in c_out) x =
   Ok (mkTensor
         (mkSize (dimN (size x)) c_out (dimH (size x) / 2) (dimW (size x) / 2))
         (DoubleConv_graph c_in c_out c_out
            (GApply (MaxPool2d 2 2) (graph x))))).
Proof.
  split; [ | split; [ | split ] ].
  - apply Down_forward_steps.
  - intros y E. unfold max_pool2d in E. rewrite !pool_out_2 in E.
    destruct ((dimC (size x) <? 1) || (dimH (size x) <? 1) ||
              (dimW (size x) <? 1)); [ discriminate E | ].
    destruct ((dimH (size x) / 2 <? 1) || (dimW (size x) / 2 <? 1));
      [ discriminate E | ].
    injection E as <-. cbn [size dimH dimW].
    repeat split; intros; div_lia.
  - intros HC HH HW. rewrite max_pool2d_ok by assumption.
    eexists. reflexivity.
  - intros Hin Hout HC Hok. apply Down_forward_ok; assumption.
Qed.

(** A 7 x 9 plane is pooled to 3 x 4. *)
Lemma Down_forward_spec_witness :
  forward true (Down 4 8) (input_tensor "x" 1 4 7 9) =
  Ok (mkTensor (mkSize 1 8 3 4)
        (DoubleConv_graph 4 8 8 (GApply (MaxPool2d 2 2) (GInput "x")))).
Proof.
  refine (proj2 (proj2 (proj2 (Down_forward_spec true 4 8
                                 (input_tensor "x" 1 4 7 9)))) _ _ _ _).
  - lia.
  - lia.
  - reflexivity.
  - unfold down_ok, bn_ok. simpl.
    repeat split; try lia; intros _; vm_compute; discriminate.
Defined.

(** ** C7: the upsampling strategy does not change the output size *)

(** C7.  For every configuration and every input tensor, the network with the
    interpolation strategy and the network with the transpose-convolution
    strategy return tensors of the same size (and raise on the same inputs);
    whenever a tensor is returned its channel count is the configured class
    count; and on every input the network accepts both return
    [(N, num_classes, H, W)]. *)
Theorem UNet_strategy_same_shape training ic nc b x :
  valid_config ic nc b ->
  output_size (UNet_forward training (UNet_init ic nc true b) x) =
  output_size (UNet_forward training (UNet_init ic nc false b) x)
  /\
  (forall bil y,
     UNet_forward training (UNet_init ic nc bil b) x = Ok y ->
     dimC (size y) = nc)
  /\
  (dimC (size x) = ic -> unet_ok training x ->
   forall bil,
     output_size (UNet_forward training (UNet_init ic nc bil b) x) =
     Some (mkSize (dimN (size x)) nc (dimH (size x)) (dimW (size x)))).
Proof.
  intros Hcfg.
  assert (Hsome : dimC (size x) = ic -> unet_ok training x ->
                  forall bil,
                    output_size (UNet_forward training (UNet_init ic nc bil b) x) =
                    Some (mkSize (dimN (size x)) nc (dimH (size x)) (dimW (size x)))).
  { intros HC Hok bil.
    destruct (UNet_forward_ok training ic nc bil b x Hcfg HC Hok)
      as (y & E & S).
    rewrite E. cbn [output_size]. rewrite S. reflexivity. }
  assert (Hnone : ~ (dimC (size x) = ic /\ unet_ok training x) ->
                  forall bil,
                    output_size (UNet_forward training (UNet_init ic nc bil b) x) =
                    None).
  { intros Hno bil.
    destruct (UNet_forward training (UNet_init ic nc bil b) x) as [y | e] eqn:E;
      [ | reflexivity ].
    exfalso. apply Hno. exact (UNet_forward_inv _ _ _ _ _ _ _ Hcfg E). }
  split; [ | split ].
  - destruct (Z.eq_dec (dimC (size x)) ic) as [HC | HC].
    + destruct (unet_ok_dec training x) as [Hok | Hok].
      * rewrite !Hsome by assumption. reflexivity.
      * rewrite !Hnone by tauto. reflexivity.
    + rewrite !Hnone by tauto. reflexivity.
  - intros bil y E.
    destruct (UNet_forward_inv _ _ _ _ _ _ _ Hcfg E) as (HC & Hok).
    pose proof (Hsome HC Hok bil) as S. rewrite E in S. cbn [output_size] in S.
    injection S as S. rewrite S. reflexivity.
  - exact Hsome.
Qed.

Lemma UNet_strategy_same_shape_witness :
  output_size
    (UNet_forward true (UNet_init 3 2 true 32) (input_tensor "x" 2 3 128 160)) =
  output_size
    (UNet_forward true (UNet_init 3 2 false 32) (input_tensor "x" 2 3 128 160)).
Proof.
  refine (proj1 (UNet_strategy_same_shape true 3 2 32
                   (input_tensor "x" 2 3 128 160) _)).
  unfold valid_config. lia.
Defined.

(** ** C9: the pad amounts of the UpBlock *)

(** C9.  For every difference of either sign the two pad amounts of an axis,
    [diff // 2] and [diff - diff // 2], add up to the difference; so after
    [F.pad] the height and width of [x1] are exactly those of [x2].  When
    [x1] is the larger one on an axis both amounts of that axis are
    non-positive: [x1] is cropped, not padded. *)
Theorem Up_pad_matches_skip x1 x2 :
  nonempty x1 -> nonempty x2 ->
  let diff_y := dimH (size x2) - dimH (size x1) in
  let diff_x := dimW (size x2) - dimW (size x1) in
  Up_pads x1 x2 =
    (diff_x / 2, diff_x - diff_x / 2, diff_y / 2, diff_y - diff_y / 2) /\
  diff_x / 2 + (diff_x - diff_x / 2) = diff_x /\
  diff_y / 2 + (diff_y - diff_y / 2) = diff_y /\
  (diff_x < 0 -> diff_x / 2 <= 0 /\ diff_x - diff_x / 2 <= 0) /\
  (diff_y < 0 -> diff_y / 2 <= 0 /\ diff_y - diff_y / 2 <= 0) /\
  exists y,
    F_pad x1 (Up_pads x1 x2) = Ok y /\
    size y = mkSize (dimN (size x1)) (dimC (size x1))
               (dimH (size x2)) (dimW (size x2)).
Proof.
  intros (_ & _ & H1 & W1) (_ & _ & H2 & W2) diff_y diff_x.
  split; [ reflexivity | ].
  split; [ apply pad_split_sum | ].
  split; [ apply pad_split_sum | ].
  split; [ intros Hd; destruct (proj2 (pad_split_sign diff_x) Hd); lia | ].
  split; [ intros Hd; destruct (proj2 (pad_split_sign diff_y) Hd); lia | ].
  rewrite F_pad_Up_ok by lia. eexists. split; reflexivity.
Qed.

(** An 8 x 6 tensor brought to 5 x 9: the height is cropped by 2 in front and
    1 behind, the width is padded by 1 in front and 2 behind. *)
Lemma Up_pad_matches_skip_witness :
  Up_pads (input_tensor "x1" 1 4 8 6) (input_tensor "x2" 1 4 5 9)
  = (1, 2, -2, -1) /\
  exists y,
    F_pad (input_tensor "x1" 1 4 8 6)
      (Up_pads (input_tensor "x1" 1 4 8 6) (input_tensor "x2" 1 4 5 9)) = Ok y /\
    size y = mkSize 1 4 5 9.
Proof.
  destruct (Up_pad_matches_skip
              (input_tensor "x1" 1 4 8 6) (input_tensor "x2" 1 4 5 9))
    as (Hp & _ & _ & _ & _ & Hy).
  - unfold nonempty. simpl. lia.
  - unfold nonempty. simpl. lia.
  - split; [ reflexivity | exact Hy ].
Defined.

(** ** C10: channel counts inside the decoder *)

(** C10.  For every base width [b >= 1], either strategy and every input with
    the configured channel count: at each of the four decoder stages the
    tensor [cat [x2, x1]] has exactly the [in_channels] that stage's
    ConvBlock was constructed with ([16b], [8b], [4b], [2b]); no layer of
    the network ever raises a channel mismatch; and the stages are reached
    on every input the encoder accepts. *)
Theorem decoder_channels_consistent training ic nc bil b x :
  valid_config ic nc b ->
  dimC (size x) = ic ->
  let net := UNet_init ic nc bil b in
  (forall st,
     UNet_forward_stages training net x = Ok st ->
     (Up_forward_cat training (up1 net) (s_x5 st) (s_x4 st) = Ok (s_cat1 st) /\
      ConvBlock_in_channels (conv (up1 net)) = Some (dimC (size (s_cat1 st))) /\
      dimC (size (s_cat1 st)) = 16 * b) /\
     (Up_forward_cat training (up2 net) (s_up1 st) (s_x3 st) = Ok (s_cat2 st) /\
      ConvBlock_in_channels (conv (up2 net)) = Some (dimC (size (s_cat2 st))) /\
      dimC (size (s_cat2 st)) = 8 * b) /\
     (Up_forward_cat training (up3 net) (s_up2 st) (s_x2 st) = Ok (s_cat3 st) /\
      ConvBlock_in_channels (conv (up3 net)) = Some (dimC (size (s_cat3 st))) /\
      dimC (size (s_cat3 st)) = 4 * b) /\
     (Up_forward_cat training (up4 net) (s_up3 st) (s_x1 st) = Ok (s_cat4 st) /\
      ConvBlock_in_channels (conv (up4 net)) = Some (dimC (size (s_cat4 st))) /\
      dimC (size (s_cat4 st)) = 2 * b))
  /\
  UNet_forward training net x <> Err ChannelMismatch
  /\
  (unet_ok training x ->
   exists st, UNet_forward_stages training net x = Ok st).
Proof.
  intros Hcfg HC net. split; [ | split ].
  - intros st E.
    destruct (UNet_forward_stages_sound _ _ _ _ E)
      as (_ & _ & _ & _ & _ & (C1 & _) & (C2 & _) & (C3 & _) & (C4 & _) & _).
    destruct (UNet_stages_inv _ _ _ _ _ _ _ Hcfg E) as (_ & Hok).
    destruct (UNet_stages_ok training ic nc bil b x Hcfg HC Hok)
      as (st' & E' & S).
    unfold net in E. rewrite E in E'. injection E' as <-.
    unfold stage_sizes, UNet_sizes in S. cbn [map] in S.
    injection S as _ _ _ _ _ S6 _ S8 _ S10 _ S12 _ _.
    rewrite S6, S8, S10, S12. cbn [dimC].
    unfold net, UNet_init. cbn [up1 up2 up3 up4].
    rewrite !conv_Up_init. unfold DoubleConv. cbn [ConvBlock_in_channels].
    repeat split; (assumption || reflexivity || lia).
  - rewrite UNet_forward_via_stages.
    destruct (unet_ok_dec training x) as [Hok | Hno].
    + destruct (UNet_stages_ok training ic nc bil b x Hcfg HC Hok)
        as (st & E & _).
      unfold net. rewrite E. discriminate.
    + destruct (UNet_stages_fails training ic nc bil b x Hcfg HC Hno)
        as (e & E & He).
      unfold net. rewrite E. cbn [result_map]. congruence.
  - intros Hok.
    destruct (UNet_stages_ok training ic nc bil b x Hcfg HC Hok)
      as (st & E & _).
    exists st. exact E.
Qed.

Lemma decoder_channels_consistent_witness :
  UNet_forward true (UNet_init 3 2 false 32) (input_tensor "x" 2 3 128 160)
  <> Err ChannelMismatch /\
  exists st,
    UNet_forward_stages true (UNet_init 3 2 false 32)
      (input_tensor "x" 2 3 128 160) = Ok st /\
    map (fun t => dimC (size t)) [s_cat1 st; s_cat2 st; s_cat3 st; s_cat4 st]
    = [512; 256; 128; 64].
Proof.
  destruct (decoder_channels_consistent true 3 2 false 32
              (input_tensor "x" 2 3 128 160))
    as (Hcat & Hno & Hruns).
  - unfold valid_config. lia.
  - reflexivity.
  - split; [ exact Hno | ].
    destruct Hruns as [st E].
    + unfold unet_ok, bn_ok. simpl.
      repeat split; try lia; intros _; vm_compute; discriminate.
    + exists st. split; [ exact E | ].
      destruct (Hcat st E)
        as ((_ & _ & K1) & (_ & _ & K2) & (_ & _ & K3) & (_ & _ & K4)).
      cbn [map]. rewrite K1, K2, K3, K4. reflexivity.
Defined.

(** * Further properties of the code *)

(** ** When the blocks raise, and with what *)

Lemma upsample_empty sc m ac x :
  dimH (size x) < 1 \/ dimW (size x) < 1 ->
  upsample sc m ac x = Err EmptyInput.
Proof.
  intros Hs. unfold upsample.
  destruct Hs as [Hs | Hs]; apply Z.ltb_lt in Hs; rewrite Hs;
    [ reflexivity | rewrite orb_true_r; reflexivity ].
Qed.

Lemma conv_transpose2d_wrong_channels cin cout k st x :
  1 <= cin -> 1 <= cout ->
  dimC (size x) <> cin ->
  conv_transpose2d cin cout k st x = Err ChannelMismatch.
Proof.
  intros Hin Hout HC. unfold conv_transpose2d.
  rewrite (proj2 (Z.ltb_ge cin 1) Hin).
  rewrite (proj2 (Z.eqb_neq _ _) HC). reflexivity.
Qed.

Lemma conv_transpose2d_empty cin cout k st x :
  1 <= cin -> 1 <= cout ->
  dimC (size x) = cin ->
  dimH (size x) < 1 \/ dimW (size x) < 1 ->
  conv_transpose2d cin cout k st x = Err EmptyInput.
Proof.
  intros Hin Hout HC Hs. unfold conv_transpose2d.
  rewrite (proj2 (Z.ltb_ge cin 1) Hin).
  rewrite (proj2 (Z.eqb_eq _ _) HC). cbn [negb].
  destruct Hs as [Hs | Hs]; apply Z.ltb_lt in Hs; rewrite Hs;
    [ reflexivity | rewrite orb_true_r; reflexivity ].
Qed.

Lemma torch_cat_pair_batch_mismatch x2 x1 :
  dimN (size x1) <> dimN (size x2) ->
  torch_cat [x2; x1] 1 = Err SizeMismatch.
Proof.
  intros HN. unfold torch_cat, size_eqb, set_dim. cbn.
  rewrite (proj2 (Z.eqb_neq _ _) HN), !Z.eqb_refl.
  reflexivity.
Qed.

Lemma DoubleConv_wrong_channels training c_in c_out mid x :
  1 <= mid_or c_out mid ->
  dimC (size x) <> c_in ->
  forward training (DoubleConv c_in c_out mid) x = Err ChannelMismatch.
Proof.
  intros Hmid HC. rewrite DoubleConv_two_passes.
  unfold ConvBlock_spec, conv_bn_relu.
  rewrite conv2d_wrong_channels by assumption. reflexivity.
Qed.

Lemma Down_forward_empty training c_in c_out x :
  dimC (size x) < 1 \/ dimH (size x) < 1 \/ dimW (size x) < 1 ->
  forward training (Down c_in c_out) x = Err EmptyInput.
Proof.
  intros Hs. rewrite Down_forward_steps. unfold DownBlock_spec.
  rewrite max_pool2d_empty by exact Hs. reflexivity.
Qed.

Lemma Down_forward_small training c_in c_out x :
  1 <= dimC (size x) -> 1 <= dimH (size x) -> 1 <= dimW (size x) ->
  dimH (size x) < 2 \/ dimW (size x) < 2 ->
  forward training (Down c_in c_out) x = Err OutputTooSmall.
Proof.
  intros HC H1 W1 Hs. rewrite Down_forward_steps. unfold DownBlock_spec.
  rewrite max_pool2d_small by assumption. reflexivity.
Qed.

Lemma Down_wrong_channels training c_in c_out x :
  1 <= c_out -> 1 <= dimC (size x) ->
  2 <= dimH (size x) -> 2 <= dimW (size x) ->
  dimC (size x) <> c_in ->
  forward training (Down c_in c_out) x = Err ChannelMismatch.
Proof.
  intros Hout H1 HH HW HC. rewrite Down_forward_steps. unfold DownBlock_spec.
  rewrite max_pool2d_ok by assumption. cbn [bind].
  apply DoubleConv_wrong_channels; assumption.
Qed.

Lemma size_error_not_returns (r : result Tensor) : size_error r -> ~ returns r.
Proof. intros (e & -> & _) (y & E). discriminate E. Qed.

Lemma Err_not_returns (e : TorchError) : ~ returns (Err e).
Proof. intros (y & E). discriminate E. Qed.

Lemma DoubleConv_returns training c_in c_out mid x :
  1 <= c_out -> 1 <= mid_or c_out mid ->
  (returns (forward training (DoubleConv c_in c_out mid) x) <->
   dimC (size x) = c_in /\ dc_ok training x).
Proof.
  intros Hout Hmid. split.
  - intros R.
    destruct (Z.eq_dec (dimC (size x)) c_in) as [HC | HC].
    + split; [ exact HC | ].
      destruct (dc_ok_dec training x) as [K | K]; [ exact K | ].
      exfalso. revert R. apply size_error_not_returns.
      apply DoubleConv_forward_fails; assumption.
    + exfalso. revert R. rewrite DoubleConv_wrong_channels by assumption.
      apply Err_not_returns.
  - intros (HC & K). rewrite DoubleConv_forward_ok by assumption.
    eexists. reflexivity.
Qed.

Lemma Down_returns training c_in c_out x :
  1 <= c_in -> 1 <= c_out ->
  (returns (forward training (Down c_in c_out) x) <->
   dimC (size x) = c_in /\ down_ok training x).
Proof.
  intros Hin Hout. split.
  - intros R.
    destruct (Z_lt_le_dec (dimC (size x)) 1) as [C1 | C1].
    { exfalso. revert R. rewrite Down_forward_empty by lia.
      apply Err_not_returns. }
    destruct (Z_lt_le_dec (dimH (size x)) 1) as [H1 | H1].
    { exfalso. revert R. rewrite Down_forward_empty by lia.
      apply Err_not_returns. }
    destruct (Z_lt_le_dec (dimW (size x)) 1) as [W1 | W1].
    { exfalso. revert R. rewrite Down_forward_empty by lia.
      apply Err_not_returns. }
    destruct (Z_lt_le_dec (dimH (size x)) 2) as [HH | HH].
    { exfalso. revert R. rewrite Down_forward_small by (assumption || lia).
      apply Err_not_returns. }
    destruct (Z_lt_le_dec (dimW (size x)) 2) as [HW | HW].
    { exfalso. revert R. rewrite Down_forward_small by (assumption || lia).
      apply Err_not_returns. }
    destruct (Z.eq_dec (dimC (size x)) c_in) as [HC | HC].
    + split; [ exact HC | ].
      destruct (down_ok_dec training x) as [K | K]; [ exact K | ].
      exfalso. revert R. apply size_error_not_returns.
      apply Down_forward_fails; assumption.
    + exfalso. revert R. rewrite Down_wrong_channels by assumption.
      apply Err_not_returns.
  - intros (HC & K). rewrite Down_forward_ok by assumption.
    eexists. reflexivity.
Qed.

(** X1.  [OutConv] is a single 1x1 convolution with bias: on an input with
    [in_channels] channels and a non-empty plane it returns
    [(N, num_classes, H, W)], in either mode; on another channel count it
    raises a channel mismatch, and on an empty plane the convolution refuses
    its kernel. *)
Theorem OutConv_forward_spec training c_in nc x :
  1 <= c_in -> 1 <= nc -> batched x ->
  (dimC (size x) = c_in -> 1 <= dimH (size x) -> 1 <= dimW (size x) ->
   forward training (OutConv c_in nc) x =
   Ok (mkTensor (mkSize (dimN (size x)) nc (dimH (size x)) (dimW (size x)))
         (GApply (Conv2d c_in nc 1 0 true) (graph x)))) /\
  (dimC (size x) <> c_in ->
   forward training (OutConv c_in nc) x = Err ChannelMismatch) /\
  (dimC (size x) = c_in -> dimH (size x) < 1 \/ dimW (size x) < 1 ->
   forward training (OutConv c_in nc) x = Err KernelTooLarge).
Proof.
  intros _ Hnc _. unfold OutConv. cbn [forward]. repeat split.
  - intros HC HH HW. rewrite conv2d_ok by (assumption || lia). cbn [bind].
    replace (dimH (size x) + 2 * 0 - 1 + 1) with (dimH (size x)) by lia.
    replace (dimW (size x) + 2 * 0 - 1 + 1) with (dimW (size x)) by lia.
    reflexivity.
  - intros HC. rewrite conv2d_wrong_channels by assumption. reflexivity.
  - intros HC Hs. rewrite conv2d_small by (assumption || lia). reflexivity.
Qed.

Lemma OutConv_forward_spec_witness :
  forward true (OutConv 64 4) (input_tensor "x" 2 64 37 50) =
  Ok (mkTensor (mkSize 2 4 37 50)
        (GApply (Conv2d 64 4 1 0 true) (GInput "x"))).
Proof.
  refine (proj1 (OutConv_forward_spec true 64 4 (input_tensor "x" 2 64 37 50)
                   _ _ _) _ _ _).
  - lia.
  - lia.
  - unfold batched. simpl. lia.
  - reflexivity.
  - simpl. lia.
  - simpl. lia.
Defined.

(** X2.  A ConvBlock returns exactly when the input has [in_channels]
    channels, a non-empty plane and, in training mode, more than one value
    per channel; whatever it returns has size [(N, out_channels, H, W)]; and
    a wrong channel count is reported as a channel mismatch by the first
    convolution. *)
Theorem DoubleConv_accepts_exactly training c_in c_out mid x :
  1 <= c_in -> 1 <= c_out -> 1 <= mid_or c_out mid -> batched x ->
  (returns (forward training (DoubleConv c_in c_out mid) x) <->
   dimC (size x) = c_in /\ 1 <= dimH (size x) /\ 1 <= dimW (size x) /\
   bn_ok training (dimN (size x)) (dimH (size x)) (dimW (size x))) /\
  (forall y, forward training (DoubleConv c_in c_out mid) x = Ok y ->
     size y = mkSize (dimN (size x)) c_out (dimH (size x)) (dimW (size x))) /\
  (dimC (size x) <> c_in ->
   forward training (DoubleConv c_in c_out mid) x = Err ChannelMismatch).
Proof.
  intros _ Hout Hmid _. split; [ | split ].
  - rewrite DoubleConv_returns by assumption. unfold dc_ok. tauto.
  - intros y E.
    assert (R : returns (forward training (DoubleConv c_in c_out mid) x))
      by (exists y; exact E).
    apply DoubleConv_returns in R; [ | assumption | assumption ].
    destruct R as (HC & K).
    rewrite DoubleConv_forward_ok in E by assumption.
    injection E as <-. reflexivity.
  - apply DoubleConv_wrong_channels. exact Hmid.
Qed.

Lemma DoubleConv_accepts_exactly_witness :
  ~ returns (forward true (DoubleConv 3 8 None) (input_tensor "x" 1 3 1 1)) /\
  returns (forward true (DoubleConv 3 8 None) (input_tensor "x" 2 3 1 1)).
Proof.
  destruct (DoubleConv_accepts_exactly true 3 8 None (input_tensor "x" 1 3 1 1))
    as ((Hone & _) & _);
    [ lia | lia | simpl; lia | unfold batched; simpl; lia | ].
  destruct (DoubleConv_accepts_exactly true 3 8 None (input_tensor "x" 2 3 1 1))
    as ((_ & Htwo) & _);
    [ lia | lia | simpl; lia | unfold batched; simpl; lia | ].
  split.
  - intros R. destruct (Hone R) as (_ & _ & _ & Hbn).
    apply Hbn; reflexivity.
  - apply Htwo. unfold bn_ok. simpl.
    repeat split; try lia; intros _; discriminate.
Defined.

(** X3.  A DownBlock returns exactly when the input has [in_channels]
    channels, height and width at least 2 and, in training mode, more than
    one value per channel after pooling.  The pooling comes first: an empty
    plane is refused as an empty input, and a non-empty plane of height or
    width 1 raises "Output size is too small", both whatever the channel
    count; a wrong channel count is only reported after the pooling. *)
Theorem Down_accepts_exactly training c_in c_out x :
  1 <= c_in -> 1 <= c_out -> batched x ->
  (returns (forward training (Down c_in c_out) x) <->
   dimC (size x) = c_in /\ 2 <= dimH (size x) /\ 2 <= dimW (size x) /\
   bn_ok training (dimN (size x)) (dimH (size x) / 2) (dimW (size x) / 2)) /\
  (dimH (size x) < 1 \/ dimW (size x) < 1 ->
   forward training (Down c_in c_out) x = Err EmptyInput) /\
  (1 <= dimH (size x) -> 1 <= dimW (size x) ->
   dimH (size x) < 2 \/ dimW (size x) < 2 ->
   forward training (Down c_in c_out) x = Err OutputTooSmall) /\
  (2 <= dimH (size x) -> 2 <= dimW (size x) -> dimC (size x) <> c_in ->
   forward training (Down c_in c_out) x = Err ChannelMismatch).
Proof.
  intros Hin Hout (_ & HC1 & _ & _). split; [ | split; [ | split ] ].
  - rewrite Down_returns by assumption. unfold down_ok. tauto.
  - intros Hs. apply Down_forward_empty. tauto.
  - intros H1 W1 Hs. apply Down_forward_small; assumption.
  - intros HH HW HC. apply Down_wrong_channels; assumption.
Qed.

Lemma Down_accepts_exactly_witness :
  forward true (Down 4 8) (input_tensor "x" 1 4 0 6) = Err EmptyInput /\
  forward true (Down 4 8) (input_tensor "x" 1 7 1 9) = Err OutputTooSmall /\
  forward true (Down 4 8) (input_tensor "x" 1 7 2 9) = Err ChannelMismatch.
Proof.
  destruct (Down_accepts_exactly true 4 8 (input_tensor "x" 1 4 0 6))
    as (_ & Hempty & _ & _); [ lia | lia | unfold batched; simpl; lia | ].
  destruct (Down_accepts_exactly true 4 8 (input_tensor "x" 1 7 1 9))
    as (_ & _ & Hsmall & _); [ lia | lia | unfold batched; simpl; lia | ].
  destruct (Down_accepts_exactly true 4 8 (input_tensor "x" 1 7 2 9))
    as (_ & _ & _ & Hwrong); [ lia | lia | unfold batched; simpl; lia | ].
  split; [ | split ].
  - apply Hempty. simpl. lia.
  - apply Hsmall; simpl; lia.
  - apply Hwrong; simpl; lia.
Defined.

(** The tensor an UpBlock concatenates, when the upsampling accepts [x1] and
    the batch sizes agree. *)
Lemma Up_forward_cat_batch_mismatch training c_in c_out bil x1 x2 :
  2 <= c_in ->
  1 <= dimH (size x1) -> 1 <= dimW (size x1) ->
  0 <= dimH (size x2) -> 0 <= dimW (size x2) ->
  (bil = false -> dimC (size x1) = c_in) ->
  dimN (size x1) <> dimN (size x2) ->
  Up_forward_cat training (Up_init c_in c_out bil) x1 x2 = Err SizeMismatch.
Proof.
  intros Hin H1 W1 H2 W2 HC HN. unfold Up_forward_cat.
  assert (Hhalf : 1 <= c_in / 2) by (apply Z.div_le_lower_bound; lia).
  destruct bil; cbn [Up_init up forward].
  - rewrite upsample_ok by assumption. cbn [bind].
    rewrite F_pad_Up_ok by (cbn [size dimH dimW]; lia). cbn [bind].
    apply torch_cat_pair_batch_mismatch. exact HN.
  - rewrite conv_transpose2d_ok by (auto || lia). cbn [bind].
    rewrite F_pad_Up_ok by (cbn [size dimH dimW]; lia). cbn [bind].
    apply torch_cat_pair_batch_mismatch. exact HN.
Qed.

Lemma Up_forward_cat_empty training c_in c_out bil x1 x2 :
  2 <= c_in ->
  dimH (size x1) < 1 \/ dimW (size x1) < 1 ->
  (bil = false -> dimC (size x1) = c_in) ->
  Up_forward_cat training (Up_init c_in c_out bil) x1 x2 = Err EmptyInput.
Proof.
  intros Hin Hs HC. unfold Up_forward_cat.
  assert (Hhalf : 1 <= c_in / 2) by (apply Z.div_le_lower_bound; lia).
  destruct bil; cbn [Up_init up forward].
  - rewrite upsample_empty by exact Hs. reflexivity.
  - rewrite conv_transpose2d_empty by (auto || lia). reflexivity.
Qed.

Lemma Up_forward_cat_wrong_channels training c_in c_out x1 x2 :
  2 <= c_in ->
  dimC (size x1) <> c_in ->
  Up_forward_cat training (Up_init c_in c_out false) x1 x2 =
  Err ChannelMismatch.
Proof.
  intros Hin HC. unfold Up_forward_cat. cbn [Up_init up forward].
  assert (Hhalf : 1 <= c_in / 2) by (apply Z.div_le_lower_bound; lia).
  rewrite conv_transpose2d_wrong_channels by (assumption || lia).
  reflexivity.
Qed.

(** X4.  An UpBlock with at least 2 input channels and 1 output channel (so
    that none of its layers has an empty weight) returns exactly when [x1]
    has a non-empty plane, the two batch sizes agree, the channels of [x2]
    and of the upsampled [x1] add up to [in_channels] (with
    transpose-convolution [x1] itself must have [in_channels] channels) and
    the ConvBlock accepts a tensor of [x2]'s size.  No condition relates the
    height and width of [x1] to those of [x2]: the padding step absorbs any
    difference. *)
Theorem Up_accepts_exactly training c_in c_out bil x1 x2 :
  2 <= c_in -> 1 <= c_out -> batched x1 -> batched x2 ->
  (returns (Up_forward training (Up_init c_in c_out bil) x1 x2) <->
   1 <= dimH (size x1) /\ 1 <= dimW (size x1) /\
   dimN (size x1) = dimN (size x2) /\
   (bil = false -> dimC (size x1) = c_in) /\
   dimC (size x2) + (if bil then dimC (size x1) else c_in / 2) = c_in /\
   dc_ok training x2).
Proof.
  intros Hin Hout (_ & _ & H1 & W1) (_ & _ & H2 & W2).
  assert (Hhalf : 1 <= c_in / 2) by (apply Z.div_le_lower_bound; lia).
  split.
  - intros R. rewrite Up_forward_via_cat in R.
    assert (HC : bil = false -> dimC (size x1) = c_in).
    { intros ->.
      destruct (Z.eq_dec (dimC (size x1)) c_in) as [HC | HC]; [ exact HC | ].
      exfalso. revert R.
      rewrite Up_forward_cat_wrong_channels by assumption.
      apply Err_not_returns. }
    destruct (Z_lt_le_dec (dimH (size x1)) 1) as [L1 | L1].
    { exfalso. revert R. rewrite Up_forward_cat_empty by (auto || lia).
      apply Err_not_returns. }
    destruct (Z_lt_le_dec (dimW (size x1)) 1) as [L2 | L2].
    { exfalso. revert R. rewrite Up_forward_cat_empty by (auto || lia).
      apply Err_not_returns. }
    destruct (Z.eq_dec (dimN (size x1)) (dimN (size x2))) as [HN | HN].
    2: { exfalso. revert R.
         rewrite Up_forward_cat_batch_mismatch by assumption.
         apply Err_not_returns. }
    rewrite (Up_forward_cat_ok training c_in c_out bil x1 x2
               Hin HN L1 L2 H2 W2 HC) in R.
    cbn [bind] in R.
    rewrite conv_Up_init in R.
    apply DoubleConv_returns in R;
      [ | exact Hout | destruct bil; cbn [mid_or]; assumption ].
    destruct R as (Hsum & K).
    unfold dc_ok in K |- *. cbn [size dimN dimC dimH dimW] in Hsum, K.
    tauto.
  - intros (L1 & L2 & HN & HC & Hsum & K).
    rewrite Up_forward_ok by assumption. eexists. reflexivity.
Qed.

(** An [x1] larger than [x2] is accepted (and cropped); batch sizes 1 and 2
    are not. *)
Lemma Up_accepts_exactly_witness :
  returns (Up_forward false (Up_init 8 2 true)
             (input_tensor "x1" 1 4 9 9) (input_tensor "x2" 1 4 5 4)) /\
  ~ returns (Up_forward false (Up_init 8 2 true)
               (input_tensor "x1" 1 4 2 2) (input_tensor "x2" 2 4 4 4)).
Proof.
  destruct (Up_accepts_exactly false 8 2 true
              (input_tensor "x1" 1 4 9 9) (input_tensor "x2" 1 4 5 4))
    as (_ & Hyes);
    [ lia | lia | unfold batched; simpl; lia | unfold batched; simpl; lia | ].
  destruct (Up_accepts_exactly false 8 2 true
              (input_tensor "x1" 1 4 2 2) (input_tensor "x2" 2 4 4 4))
    as (Hno & _);
    [ lia | lia | unfold batched; simpl; lia | unfold batched; simpl; lia | ].
  split.
  - apply Hyes. unfold dc_ok, bn_ok. simpl.
    repeat split; try lia; intros; discriminate.
  - intros R. destruct (Hno R) as (_ & _ & HN & _). discriminate HN.
Defined.

(** X5.  For an UpBlock with at least 2 input channels and 1 output channel
    and two non-empty tensors: when the upsampling accepts [x1] but the
    batch sizes of [x1] and [x2] differ, [Up.forward] raises at the
    concatenation: a size mismatch, before the ConvBlock is reached. *)
Theorem Up_batch_mismatch_raises training c_in c_out bil x1 x2 :
  2 <= c_in -> 1 <= c_out ->
  nonempty x1 -> nonempty x2 ->
  (bil = false -> dimC (size x1) = c_in) ->
  dimN (size x1) <> dimN (size x2) ->
  Up_forward training (Up_init c_in c_out bil) x1 x2 = Err SizeMismatch.
Proof.
  intros Hin _ (_ & _ & H1 & W1) (_ & _ & H2 & W2) HC HN.
  rewrite Up_forward_via_cat.
  rewrite Up_forward_cat_batch_mismatch by (assumption || lia). reflexivity.
Qed.

Lemma Up_batch_mismatch_raises_witness :
  Up_forward true (Up_init 8 2 false)
    (input_tensor "x1" 1 8 2 2) (input_tensor "x2" 2 4 4 4) = Err SizeMismatch.
Proof.
  apply (Up_batch_mismatch_raises true 8 2 false
           (input_tensor "x1" 1 8 2 2) (input_tensor "x2" 2 4 4 4)).
  - lia.
  - lia.
  - unfold nonempty. simpl. lia.
  - unfold nonempty. simpl. lia.
  - reflexivity.
  - simpl. lia.
Defined.

(** ** When the whole network raises, and with what *)

(** X6.  The forward pass returns exactly when the input has the configured
    channel count, height and width are at least 16 and, in training mode,
    [N * (H // 16) * (W // 16)] is not 1; whatever it returns has the size
    [(N, num_classes, H, W)] of the input plane, divisible by 16 or not. *)
Theorem UNet_accepts_exactly training ic nc bil b x :
  valid_config ic nc b -> batched x ->
  (returns (UNet_forward training (UNet_init ic nc bil b) x) <->
   dimC (size x) = ic /\ 16 <= dimH (size x) /\ 16 <= dimW (size x) /\
   bn_ok training (dimN (size x)) (dimH (size x) / 16) (dimW (size x) / 16)) /\
  (forall y, UNet_forward training (UNet_init ic nc bil b) x = Ok y ->
     size y = mkSize (dimN (size x)) nc (dimH (size x)) (dimW (size x))).
Proof.
  intros Hcfg _. split.
  - split.
    + intros (y & E). exact (UNet_forward_inv _ _ _ _ _ _ _ Hcfg E).
    + intros (HC & Hok).
      destruct (UNet_forward_ok training ic nc bil b x Hcfg HC Hok)
        as (y & E & _).
      exists y. exact E.
  - intros y E.
    destruct (UNet_forward_inv _ _ _ _ _ _ _ Hcfg E) as (HC & Hok).
    destruct (UNet_forward_ok training ic nc bil b x Hcfg HC Hok)
      as (y' & E' & S).
    rewrite E in E'. injection E' as <-. exact S.
Qed.

(** 31 x 16 is accepted, 15 x 16 is not. *)
Lemma UNet_accepts_exactly_witness :
  returns (UNet_forward false (UNet_init 1 4 true 64)
             (input_tensor "x" 1 1 31 16)) /\
  ~ returns (UNet_forward false (UNet_init 1 4 true 64)
               (input_tensor "x" 1 1 15 16)).
Proof.
  destruct (UNet_accepts_exactly false 1 4 true 64 (input_tensor "x" 1 1 31 16))
    as ((_ & Hyes) & _);
    [ unfold valid_config; lia | unfold batched; simpl; lia | ].
  destruct (UNet_accepts_exactly false 1 4 true 64 (input_tensor "x" 1 1 15 16))
    as ((Hno & _) & _);
    [ unfold valid_config; lia | unfold batched; simpl; lia | ].
  split.
  - apply Hyes. unfold bn_ok. simpl.
    repeat split; try lia; intros; discriminate.
  - intros R. destruct (Hno R) as (_ & HH & _). simpl in HH. lia.
Defined.

(** X7.  The sizes of all the tensors of an accepted forward pass: the
    encoder states have [H // 2^k] by [W // 2^k] planes for [k = 0..4], each
    concatenated tensor has twice the channels of the skip tensor it starts
    with, each decoder stage is back at its skip tensor's plane, and the
    logits have the input's plane. *)
Theorem UNet_size_table training ic nc bil b x :
  valid_config ic nc b -> batched x ->
  dimC (size x) = ic -> unet_ok training x ->
  exists st,
    UNet_forward_stages training (UNet_init ic nc bil b) x = Ok st /\
    UNet_forward training (UNet_init ic nc bil b) x = Ok (s_logits st) /\
    let n := dimN (size x) in
    let h := dimH (size x) in
    let w := dimW (size x) in
    let f := if bil then 2 else 1 in
    stage_sizes st =
    [ mkSize n b h w;
      mkSize n (b * 2) (h / 2) (w / 2);
      mkSize n (b * 4) (h / 4) (w / 4);
      mkSize n (b * 8) (h / 8) (w / 8);
      mkSize n (b * 16 / f) (h / 16) (w / 16);
      mkSize n (b * 16) (h / 8) (w / 8);
      mkSize n (b * 8 / f) (h / 8) (w / 8);
      mkSize n (b * 8) (h / 4) (w / 4);
      mkSize n (b * 4 / f) (h / 4) (w / 4);
      mkSize n (b * 4) (h / 2) (w / 2);
      mkSize n (b * 2 / f) (h / 2) (w / 2);
      mkSize n (b * 2) h w;
      mkSize n b h w;
      mkSize n nc h w ].
Proof.
  intros Hcfg _ HC Hok.
  destruct (UNet_stages_ok training ic nc bil b x Hcfg HC Hok) as (st & E & S).
  exists st. split; [ exact E | ]. split.
  - rewrite UNet_forward_via_stages, E. reflexivity.
  - exact S.
Qed.

Lemma UNet_size_table_witness :
  exists st,
    UNet_forward_stages true (UNet_init 1 4 true 64)
      (input_tensor "x" 1 1 37 50) = Ok st /\
    size (s_x5 st) = mkSize 1 512 2 3 /\
    size (s_cat1 st) = mkSize 1 1024 4 6 /\
    size (s_logits st) = mkSize 1 4 37 50.
Proof.
  destruct (UNet_size_table true 1 4 true 64 (input_tensor "x" 1 1 37 50))
    as (st & E & _ & S).
  - unfold valid_config. lia.
  - unfold batched. simpl. lia.
  - reflexivity.
  - unfold unet_ok, bn_ok. simpl.
    repeat split; try lia; intros _; vm_compute; discriminate.
  - exists st. split; [ exact E | ].
    cbv zeta in S. unfold stage_sizes in S. cbn [map] in S.
    injection S as _ _ _ _ S5 S6 _ _ _ _ _ _ _ S14.
    rewrite S5, S6, S14. repeat split; reflexivity.
Defined.

(** X8.  An input whose channel count is not the configured one makes the
    very first convolution raise a channel mismatch, whatever its height and
    width and in either mode. *)
Theorem UNet_wrong_channels_raises training ic nc bil b x :
  valid_config ic nc b -> batched x ->
  dimC (size x) <> ic ->
  UNet_forward training (UNet_init ic nc bil b) x = Err ChannelMismatch.
Proof.
  intros Hcfg _ HC.
  rewrite UNet_forward_via_stages, UNet_stages_wrong_channels by assumption.
  reflexivity.
Qed.

Lemma UNet_wrong_channels_raises_witness :
  UNet_forward true (UNet_init 1 4 true 64) (input_tensor "x" 2 3 64 64)
  = Err ChannelMismatch.
Proof.
  apply (UNet_wrong_channels_raises true 1 4 true 64
           (input_tensor "x" 2 3 64 64)).
  - unfold valid_config. lia.
  - unfold batched. simpl. lia.
  - simpl. lia.
Defined.

Lemma bn_ok_eval n h w : bn_ok false n h w.
Proof. intros D. discriminate D. Qed.

Lemma dc_ok_eval x :
  1 <= dimH (size x) -> 1 <= dimW (size x) -> dc_ok false x.
Proof. intros HH HW. repeat split; try assumption. apply bn_ok_eval. Qed.

Lemma down_ok_eval x :
  2 <= dimH (size x) -> 2 <= dimW (size x) -> down_ok false x.
Proof. intros HH HW. repeat split; try assumption. apply bn_ok_eval. Qed.

Ltac side :=
  first [ reflexivity
        | apply down_ok_eval; assumption
        | cbn [size dimN dimC dimH dimW] in *; first [ lia | div_lia ] ].

Ltac down_or_small :=
  match goal with
  | |- bind (forward _ (Down _ _) ?t) _ = _ =>
      let L := fresh "L" in
      let M := fresh "M" in
      destruct (Z_lt_le_dec (dimH (size t)) 2) as [L | L];
      [ rewrite Down_forward_small by side; reflexivity | ];
      destruct (Z_lt_le_dec (dimW (size t)) 2) as [M | M];
      [ rewrite Down_forward_small by side; reflexivity | ];
      rewrite Down_forward_ok by side;
      cbn [bind]; cbn [size dimN dimC dimH dimW] in L, M
  end.

(** X9.  In evaluation mode an input with the configured channel count that
    is too small never reaches the decoder: with an empty plane the first
    convolution refuses its kernel, and with a height or width from 1 to 15
    one of the four poolings raises "Output size is too small". *)
Theorem UNet_eval_small_input_raises ic nc bil b x :
  valid_config ic nc b -> batched x ->
  dimC (size x) = ic ->
  (dimH (size x) < 1 \/ dimW (size x) < 1 ->
   UNet_forward false (UNet_init ic nc bil b) x = Err KernelTooLarge) /\
  (1 <= dimH (size x) -> 1 <= dimW (size x) ->
   dimH (size x) < 16 \/ dimW (size x) < 16 ->
   UNet_forward false (UNet_init ic nc bil b) x = Err OutputTooSmall).
Proof.
  intros (_ & _ & Hb) _ HC. unfold UNet_forward, UNet_init.
  cbn [in_conv down1 down2 down3 down4 up1 up2 up3 up4 out_conv].
  split.
  - intros Hs. unfold DoubleConv at 1. cbn [forward].
    rewrite conv2d_small by (assumption || lia). reflexivity.
  - intros HH HW Hs.
    rewrite DoubleConv_forward_ok
      by (assumption || (apply dc_ok_eval; assumption)).
    cbn [bind]. clear HC.
    do 4 down_or_small.
    exfalso. revert L M L0 M0 L1 M1 L2 M2 Hs. clear.
    intros. div_lia.
Qed.

(** A 12 x 40 input passes three poolings (6 x 20, 3 x 10, 1 x 5) and fails
    the fourth. *)
Lemma UNet_eval_small_input_raises_witness :
  UNet_forward false (UNet_init 1 4 true 64) (input_tensor "x" 1 1 12 40)
  = Err OutputTooSmall.
Proof.
  destruct (UNet_eval_small_input_raises 1 4 true 64
              (input_tensor "x" 1 1 12 40)) as (_ & Hsmall).
  - unfold valid_config. lia.
  - unfold batched. simpl. lia.
  - reflexivity.
  - apply Hsmall; simpl; lia.
Defined.

(** X10.  In training mode an accepted-size input that leaves a single value
    per channel at the bottom of the encoder ([N * (H // 16) * (W // 16) = 1],
    that is batch size 1 and height and width from 16 to 31) makes the batch
    normalisation of the deepest ConvBlock raise; the four levels above it
    are computed first. *)
Theorem UNet_training_bottleneck_raises ic nc bil b x :
  valid_config ic nc b -> batched x ->
  dimC (size x) = ic ->
  16 <= dimH (size x) -> 16 <= dimW (size x) ->
  dimN (size x) * (dimH (size x) / 16) * (dimW (size x) / 16) = 1 ->
  UNet_forward true (UNet_init ic nc bil b) x = Err SingleValuePerChannel.
Proof.
  intros (_ & _ & Hb) _ HC HH HW Hone. unfold UNet_forward, UNet_init.
  cbn [in_conv down1 down2 down3 down4 up1 up2 up3 up4 out_conv].
  rewrite DoubleConv_forward_ok;
    [ | pos | pos | exact HC | repeat split; try lia; apply bn_ok_big; lia ].
  norm_sizes.
  rewrite Down_forward_ok;
    [ | pos | pos | reflexivity
      | unfold down_ok; norm_sizes; repeat split; try lia;
        apply bn_ok_big; div_lia ].
  norm_sizes.
  rewrite Down_forward_ok;
    [ | pos | pos | reflexivity
      | unfold down_ok; norm_sizes; repeat split; try div_lia;
        apply bn_ok_big; div_lia ].
  norm_sizes.
  rewrite Down_forward_ok;
    [ | pos | pos | reflexivity
      | unfold down_ok; norm_sizes; repeat split; try div_lia;
        apply bn_ok_big; div_lia ].
  norm_sizes.
  rewrite Down_forward_steps. unfold DownBlock_spec.
  rewrite max_pool2d_ok by (norm_sizes; div_lia).
  norm_sizes.
  rewrite DoubleConv_two_passes. unfold ConvBlock_spec, conv_bn_relu.
  rewrite conv2d_ok
    by (norm_sizes; cbn [mid_or]; try reflexivity;
        first [ div_lia | destruct bil; div_lia ]).
  norm_sizes.
  rewrite batch_norm2d_single; [ reflexivity | ].
  norm_sizes.
  replace (dimH (size x) / 16 + 2 * 1 - 3 + 1) with (dimH (size x) / 16) by lia.
  replace (dimW (size x) / 16 + 2 * 1 - 3 + 1) with (dimW (size x) / 16) by lia.
  exact Hone.
Qed.

Lemma UNet_training_bottleneck_raises_witness :
  UNet_forward true (UNet_init 3 2 false 32) (input_tensor "x" 1 3 31 17)
  = Err SingleValuePerChannel.
Proof.
  apply (UNet_training_bottleneck_raises 3 2 false 32
           (input_tensor "x" 1 3 31 17)).
  - unfold valid_config. lia.
  - unfold batched. simpl. lia.
  - reflexivity.
  - simpl. lia.
  - simpl. lia.
  - reflexivity.
Defined.

(** ** What the decoder pads, and what the network returns *)

Lemma pad_node_Up_cat_graph u x1 x2 h w :
  dimH (size x2) = h -> dimW (size x2) = w ->
  dimH (size x1) = h / 2 -> dimW (size x1) = w / 2 ->
  pad_node (Up_cat_graph u x1 x2) = Some (0, w mod 2, 0, h mod 2).
Proof.
  intros H2 W2 H1 W1. unfold Up_cat_graph, pad_node.
  rewrite H1, H2, W1, W2.
  replace ((w - w / 2 * 2) / 2) with 0 by div_lia.
  replace ((h - h / 2 * 2) / 2) with 0 by div_lia.
  replace (w - w / 2 * 2 - 0) with (w mod 2) by div_lia.
  replace (h - h / 2 * 2 - 0) with (h mod 2) by div_lia.
  reflexivity.
Qed.

Lemma Up_forward_cat_half training c_in c_out bil x1 x2 y :
  Up_forward_cat training (Up_init c_in c_out bil) x1 x2 = Ok y ->
  2 <= c_in ->
  dimN (size x1) = dimN (size x2) ->
  1 <= dimH (size x1) -> 1 <= dimW (size x1) ->
  (bil = false -> dimC (size x1) = c_in) ->
  dimH (size x1) = dimH (size x2) / 2 ->
  dimW (size x1) = dimW (size x2) / 2 ->
  pad_node (graph y) =
  Some (0, dimW (size x2) mod 2, 0, dimH (size x2) mod 2).
Proof.
  intros E Hin HN H1 W1 HC Hh Hw.
  rewrite Up_forward_cat_ok in E by (assumption || div_lia).
  injection E as <-. cbn [graph].
  apply pad_node_Up_cat_graph; auto.
Qed.

(** X11.  Inside the network the padding of an UpBlock only ever adds: at
    each decoder stage nothing is put in front and one row (column) is put
    behind exactly when the skip tensor's height (width) is odd; no stage
    crops.  When the input's height and width are divisible by 16 all four
    paddings are zero. *)
Theorem UNet_pads_are_remainders training ic nc bil b x :
  valid_config ic nc b -> batched x ->
  dimC (size x) = ic -> unet_ok training x ->
  exists st,
    UNet_forward_stages training (UNet_init ic nc bil b) x = Ok st /\
    let h := dimH (size x) in
    let w := dimW (size x) in
    map (fun t => pad_node (graph t))
      [s_cat1 st; s_cat2 st; s_cat3 st; s_cat4 st] =
    [ Some (0, (w / 8) mod 2, 0, (h / 8) mod 2);
      Some (0, (w / 4) mod 2, 0, (h / 4) mod 2);
      Some (0, (w / 2) mod 2, 0, (h / 2) mod 2);
      Some (0, w mod 2, 0, h mod 2) ] /\
    ((16 | h) -> (16 | w) ->
     map (fun t => pad_node (graph t))
       [s_cat1 st; s_cat2 st; s_cat3 st; s_cat4 st] =
     [ Some (0, 0, 0, 0); Some (0, 0, 0, 0);
       Some (0, 0, 0, 0); Some (0, 0, 0, 0) ]).
Proof.
  intros Hcfg _ HC Hok.
  destruct (UNet_stages_ok training ic nc bil b x Hcfg HC Hok) as (st & E & S).
  destruct Hcfg as (_ & _ & Hb).
  exists st. split; [ exact E | ].
  destruct (UNet_forward_stages_sound _ _ _ _ E)
    as (_ & _ & _ & _ & _ & (C1 & _) & (C2 & _) & (C3 & _) & (C4 & _) & _).
  unfold UNet_init in C1, C2, C3, C4. cbn [up1 up2 up3 up4] in C1, C2, C3, C4.
  unfold stage_sizes, UNet_sizes in S. cbn [map] in S.
  injection S as S1 S2 S3 S4 S5 _ S7 _ S9 _ S11 _ _ _.
  destruct Hok as (HH & HW & _).
  assert (P1 := Up_forward_cat_half _ _ _ _ _ _ _ C1).
  assert (P2 := Up_forward_cat_half _ _ _ _ _ _ _ C2).
  assert (P3 := Up_forward_cat_half _ _ _ _ _ _ _ C3).
  assert (P4 := Up_forward_cat_half _ _ _ _ _ _ _ C4).
  rewrite S5, S4 in P1. rewrite S7, S3 in P2.
  rewrite S9, S2 in P3. rewrite S11, S1 in P4.
  cbn [dimN dimC dimH dimW] in P1, P2, P3, P4.
  assert (Q1 : pad_node (graph (s_cat1 st)) =
               Some (0, (dimW (size x) / 8) mod 2, 0, (dimH (size x) / 8) mod 2)).
  { apply P1; clear - HH HW Hb; try reflexivity; try div_lia.
    intros ->. div_lia. }
  assert (Q2 : pad_node (graph (s_cat2 st)) =
               Some (0, (dimW (size x) / 4) mod 2, 0, (dimH (size x) / 4) mod 2)).
  { apply P2; clear - HH HW Hb; try reflexivity; try div_lia.
    intros ->. div_lia. }
  assert (Q3 : pad_node (graph (s_cat3 st)) =
               Some (0, (dimW (size x) / 2) mod 2, 0, (dimH (size x) / 2) mod 2)).
  { apply P3; clear - HH HW Hb; try reflexivity; try div_lia.
    intros ->. div_lia. }
  assert (Q4 : pad_node (graph (s_cat4 st)) =
               Some (0, dimW (size x) mod 2, 0, dimH (size x) mod 2)).
  { apply P4; clear - HH HW Hb; try reflexivity; try div_lia.
    intros ->. div_lia. }
  cbv zeta. cbn [map]. rewrite Q1, Q2, Q3, Q4. split; [ reflexivity | ].
  intros [qh Eh] [qw Ew]. clear - Eh Ew.
  replace ((dimW (size x) / 8) mod 2) with 0 by div_lia.
  replace ((dimH (size x) / 8) mod 2) with 0 by div_lia.
  replace ((dimW (size x) / 4) mod 2) with 0 by div_lia.
  replace ((dimH (size x) / 4) mod 2) with 0 by div_lia.
  replace ((dimW (size x) / 2) mod 2) with 0 by div_lia.
  replace ((dimH (size x) / 2) mod 2) with 0 by div_lia.
  replace (dimW (size x) mod 2) with 0 by div_lia.
  replace (dimH (size x) mod 2) with 0 by div_lia.
  reflexivity.
Qed.

(** 37 x 50: the skip planes are 4 x 6, 9 x 12, 18 x 25 and 37 x 50. *)
Lemma UNet_pads_are_remainders_witness :
  exists st,
    UNet_forward_stages true (UNet_init 1 4 true 64)
      (input_tensor "x" 1 1 37 50) = Ok st /\
    map (fun t => pad_node (graph t))
      [s_cat1 st; s_cat2 st; s_cat3 st; s_cat4 st] =
    [ Some (0, 0, 0, 0); Some (0, 0, 0, 1);
      Some (0, 1, 0, 0); Some (0, 0, 0, 1) ].
Proof.
  destruct (UNet_pads_are_remainders true 1 4 true 64
              (input_tensor "x" 1 1 37 50)) as (st & E & P & _).
  - unfold valid_config. lia.
  - unfold batched. simpl. lia.
  - reflexivity.
  - unfold unet_ok, bn_ok. simpl.
    repeat split; try lia; intros _; vm_compute; discriminate.
  - exists st. split; [ exact E | exact P ].
Defined.

Lemma DoubleConv_last_layer training c_in c_out mid x y :
  forward training (DoubleConv c_in c_out mid) x = Ok y ->
  last_layer (graph y) = Some ReLU.
Proof.
  rewrite DoubleConv_two_passes. unfold ConvBlock_spec.
  destruct (conv_bn_relu training c_in (mid_or c_out mid) x) as [y1 | e];
    cbn [bind]; [ | discriminate ].
  unfold conv_bn_relu.
  destruct (conv2d (mid_or c_out mid) c_out 3 1 false y1) as [y2 | e];
    cbn [bind]; [ | discriminate ].
  destruct (batch_norm2d training c_out y2) as [y3 | e];
    cbn [bind]; [ | discriminate ].
  unfold relu. intros E. injection E as <-. reflexivity.
Qed.

Lemma Up_last_layer training c_in c_out bil x1 x2 y :
  Up_forward training (Up_init c_in c_out bil) x1 x2 = Ok y ->
  last_layer (graph y) = Some ReLU.
Proof.
  rewrite Up_forward_via_cat, conv_Up_init.
  destruct (Up_forward_cat training (Up_init c_in c_out bil) x1 x2)
    as [xc | e]; cbn [bind]; [ | discriminate ].
  apply DoubleConv_last_layer.
Qed.

Lemma OutConv_graph training c_in nc x y :
  forward training (OutConv c_in nc) x = Ok y ->
  graph y = GApply (Conv2d c_in nc 1 0 true) (graph x).
Proof.
  unfold OutConv. cbn [forward]. unfold conv2d.
  destruct (nc <? 1); cbn [bind]; [ discriminate | ].
  destruct (negb (dimC (size x) =? c_in)); cbn [bind]; [ discriminate | ].
  destruct ((dimH (size x) + 2 * 0 <? 1) || (dimW (size x) + 2 * 0 <? 1));
    cbn [bind]; [ discriminate | ].
  intros E. injection E as <-. reflexivity.
Qed.

(** X12.  What the network returns is the output of the 1x1 convolution of
    [OutConv] (with bias) applied to the ReLU output of the last UpBlock:
    no activation or normalisation follows the last convolution, so the
    values are raw class scores. *)
Theorem UNet_returns_raw_scores training ic nc bil b x :
  valid_config ic nc b -> batched x ->
  dimC (size x) = ic -> unet_ok training x ->
  exists y g,
    UNet_forward training (UNet_init ic nc bil b) x = Ok y /\
    graph y = GApply (Conv2d b nc 1 0 true) g /\
    last_layer g = Some ReLU.
Proof.
  intros Hcfg _ HC Hok.
  destruct (UNet_stages_ok training ic nc bil b x Hcfg HC Hok) as (st & E & _).
  destruct (UNet_forward_stages_sound _ _ _ _ E)
    as (_ & _ & _ & _ & _ & _ & _ & _ & (_ & U4) & O).
  exists (s_logits st), (graph (s_up4 st)). split; [ | split ].
  - rewrite UNet_forward_via_stages, E. reflexivity.
  - exact (OutConv_graph _ _ _ _ _ O).
  - exact (Up_last_layer _ _ _ _ _ _ _ U4).
Qed.

Lemma UNet_returns_raw_scores_witness :
  exists y g,
    UNet_forward true (UNet_init 1 4 true 64) (input_tensor "x" 1 1 37 50)
    = Ok y /\
    graph y = GApply (Conv2d 64 4 1 0 true) g /\
    last_layer g = Some ReLU.
Proof.
  apply (UNet_returns_raw_scores true 1 4 true 64 (input_tensor "x" 1 1 37 50)).
  - unfold valid_config. lia.
  - unfold batched. simpl. lia.
  - reflexivity.
  - unfold unet_ok, bn_ok. simpl.
    repeat split; try lia; intros _; vm_compute; discriminate.
Defined.

(** ** Training and evaluation mode *)

(** Induction on modules, through the layers of a [Sequential]. *)
Lemma Module_nested_ind (P : Module -> Prop) :
  (forall cin cout k p b, P (Conv2d cin cout k p b)) ->
  (forall nf, P (BatchNorm2d nf)) ->
  P ReLU ->
  (forall k st, P (MaxPool2d k st)) ->
  (forall sc md ac, P (Upsample sc md ac)) ->
  (forall cin cout k st, P (ConvTranspose2d cin cout k st)) ->
  (forall layers, Forall P layers -> P (Sequential layers)) ->
  forall m, P m.
Proof.
  intros HConv HBN HReLU HPool HUp HCT HSeq.
  refine (fix IH (m : Module) : P m :=
            match m with
            | Conv2d cin cout k p b => HConv cin cout k p b
            | BatchNorm2d nf => HBN nf
            | ReLU => HReLU
            | MaxPool2d k st => HPool k st
            | Upsample sc md ac => HUp sc md ac
            | ConvTranspose2d cin cout k st => HCT cin cout k st
            | Sequential layers =>
                HSeq layers
                  ((fix go (ls : list Module) : Forall P ls :=
                      match ls with
                      | [] => Forall_nil P
                      | l :: ls' => Forall_cons l (IH l) (go ls')
                      end) layers)
            end).
Qed.

Lemma forward_eval_of_training m :
  forall x y, forward true m x = Ok y -> forward false m x = Ok y.
Proof.
  induction m using Module_nested_ind; intros x y; cbn [forward];
    try (intros E; exact E).
  - unfold batch_norm2d.
    destruct (dimN (size x) * dimH (size x) * dimW (size x) =? 1);
      cbn [andb]; [ discriminate | intros E; exact E ].
  - revert x. induction H as [ | l ls Hl _ IHls ]; intros x E.
    + exact E.
    + destruct (forward true l x) as [z | e] eqn:El; cbn [bind] in E;
        [ | discriminate E ].
      rewrite (Hl x z El). cbn [bind]. apply IHls. exact E.
Qed.

Lemma Up_forward_eval_of_training self x1 x2 y :
  Up_forward true self x1 x2 = Ok y -> Up_forward false self x1 x2 = Ok y.
Proof.
  rewrite !Up_forward_via_cat. unfold Up_forward_cat.
  destruct (forward true (up self) x1) as [u | e] eqn:Eu; cbn [bind];
    [ | discriminate ].
  rewrite (forward_eval_of_training _ _ _ Eu). cbn [bind].
  destruct (F_pad u (Up_pads u x2)) as [p | e]; cbn [bind]; [ | discriminate ].
  destruct (torch_cat [x2; p] 1) as [xc | e]; cbn [bind]; [ | discriminate ].
  apply forward_eval_of_training.
Qed.

Ltac eval_step E :=
  match type of E with
  | bind (forward true ?m ?t) _ = Ok _ =>
      let z := fresh "z" in
      let Ez := fresh "Ez" in
      destruct (forward true m t) as [z | ] eqn:Ez; cbn [bind] in E;
      [ rewrite (forward_eval_of_training _ _ _ Ez); cbn [bind]
      | discriminate E ]
  | bind (Up_forward true ?u ?a ?c) _ = Ok _ =>
      let z := fresh "z" in
      let Ez := fresh "Ez" in
      destruct (Up_forward true u a c) as [z | ] eqn:Ez; cbn [bind] in E;
      [ rewrite (Up_forward_eval_of_training _ _ _ _ Ez); cbn [bind]
      | discriminate E ]
  end.

(** X13.  Whatever the network returns in training mode it also returns, the
    same tensor, in evaluation mode: switching to evaluation never makes an
    accepted input fail.  This holds for any assembly of the blocks, not
    only for the one [UNet.__init__] builds. *)
Theorem UNet_eval_accepts_more self x y :
  UNet_forward true self x = Ok y -> UNet_forward false self x = Ok y.
Proof.
  unfold UNet_forward. intros E.
  do 10 eval_step E. exact E.
Qed.

Lemma UNet_eval_accepts_more_witness :
  returns (UNet_forward false (UNet_init 1 4 true 8)
             (input_tensor "x" 2 1 16 16)).
Proof.
  destruct (UNet_forward true (UNet_init 1 4 true 8)
              (input_tensor "x" 2 1 16 16)) as [y | e] eqn:E.
  - exists y. apply (UNet_eval_accepts_more _ _ _ E).
  - vm_compute in E. discriminate E.
Defined.

(** ** The skip connections *)

Lemma Up_forward_cat_inputs training c_in c_out bil x1 x2 y :
  Up_forward_cat training (Up_init c_in c_out bil) x1 x2 = Ok y ->
  cat_inputs (graph y) =
  Some (graph x2,
        (if bil then Upsample 2 Bilinear true
         else ConvTranspose2d c_in (c_in / 2) 2 2),
        graph x1).
Proof.
  unfold Up_forward_cat.
  destruct bil; cbn [Up_init up forward].
  - unfold upsample. destruct (_ || _); cbn [bind]; [ discriminate | ].
    destruct (F_pad _ _) as [p | e] eqn:Ep; cbn [bind]; [ | discriminate ].
    unfold F_pad, Up_pads in Ep. cbn [size graph] in Ep.
    destruct (pad_axis _ _ _); [ | discriminate Ep ].
    destruct (pad_axis _ _ _); [ | discriminate Ep ].
    injection Ep as <-.
    unfold torch_cat. cbn [Z.ltb Z.compare orb].
    destruct (forallb _ _); [ | discriminate ].
    intros E. injection E as <-. reflexivity.
  - unfold conv_transpose2d.
    destruct (_ <? _); cbn [bind]; [ discriminate | ].
    destruct (negb _); cbn [bind]; [ discriminate | ].
    destruct (_ || _); cbn [bind]; [ discriminate | ].
    destruct (_ <? _); cbn [bind]; [ discriminate | ].
    destruct (F_pad _ _) as [p | e] eqn:Ep; cbn [bind]; [ | discriminate ].
    unfold F_pad, Up_pads in Ep. cbn [size graph] in Ep.
    destruct (pad_axis _ _ _); [ | discriminate Ep ].
    destruct (pad_axis _ _ _); [ | discriminate Ep ].
    injection Ep as <-.
    unfold torch_cat. cbn [Z.ltb Z.compare orb].
    destruct (forallb _ _); [ | discriminate ].
    intros E. injection E as <-. reflexivity.
Qed.

(** X15.  The decoder consumes the encoder states in reverse order: the
    first UpBlock concatenates [x4] with the upsampled [x5], the second [x3]
    with the upsampled output of the first, the third [x2], the fourth
    [x1]; in each the skip tensor comes first, and the upsampling layer is
    bilinear interpolation or a transpose-convolution that halves
    [16b], [8b], [4b], [2b] channels, as the flag says. *)
Theorem UNet_skip_wiring training ic nc bil b x :
  valid_config ic nc b -> batched x ->
  dimC (size x) = ic -> unet_ok training x ->
  exists st,
    UNet_forward_stages training (UNet_init ic nc bil b) x = Ok st /\
    let up_layer c :=
      if bil then Upsample 2 Bilinear true
      else ConvTranspose2d c (c / 2) 2 2 in
    cat_inputs (graph (s_cat1 st)) =
      Some (graph (s_x4 st), up_layer (b * 16), graph (s_x5 st)) /\
    cat_inputs (graph (s_cat2 st)) =
      Some (graph (s_x3 st), up_layer (b * 8), graph (s_up1 st)) /\
    cat_inputs (graph (s_cat3 st)) =
      Some (graph (s_x2 st), up_layer (b * 4), graph (s_up2 st)) /\
    cat_inputs (graph (s_cat4 st)) =
      Some (graph (s_x1 st), up_layer (b * 2), graph (s_up3 st)).
Proof.
  intros Hcfg _ HC Hok.
  destruct (UNet_stages_ok training ic nc bil b x Hcfg HC Hok) as (st & E & _).
  exists st. split; [ exact E | ].
  destruct (UNet_forward_stages_sound _ _ _ _ E)
    as (_ & _ & _ & _ & _ & (C1 & _) & (C2 & _) & (C3 & _) & (C4 & _) & _).
  unfold UNet_init in C1, C2, C3, C4. cbn [up1 up2 up3 up4] in C1, C2, C3, C4.
  cbv zeta.
  rewrite (Up_forward_cat_inputs _ _ _ _ _ _ _ C1).
  rewrite (Up_forward_cat_inputs _ _ _ _ _ _ _ C2).
  rewrite (Up_forward_cat_inputs _ _ _ _ _ _ _ C3).
  rewrite (Up_forward_cat_inputs _ _ _ _ _ _ _ C4).
  repeat split; reflexivity.
Qed.

Lemma UNet_skip_wiring_witness :
  exists st,
    UNet_forward_stages true (UNet_init 3 2 false 32)
      (input_tensor "x" 2 3 128 160) = Ok st /\
    cat_inputs (graph (s_cat1 st)) =
      Some (graph (s_x4 st), ConvTranspose2d 512 256 2 2, graph (s_x5 st)) /\
    cat_inputs (graph (s_cat4 st)) =
      Some (graph (s_x1 st), ConvTranspose2d 64 32 2 2, graph (s_up3 st)).
Proof.
  destruct (UNet_skip_wiring true 3 2 false 32 (input_tensor "x" 2 3 128 160))
    as (st & E & W1 & _ & _ & W4).
  - unfold valid_config. lia.
  - unfold batched. simpl. lia.
  - reflexivity.
  - unfold unet_ok, bn_ok. simpl.
    repeat split; try lia; intros _; vm_compute; discriminate.
  - exists st. split; [ exact E | ]. split; [ exact W1 | exact W4 ].
Defined.
